(** * The contribution decoder of [sites/home/decoder/decoder.js]

    A shallow embedding of [covertToBinary] and [decodePayload], with the
    JavaScript built-ins they call, and the properties of the decoding
    contract proved over it. *)

From Stdlib Require Import ZArith NArith Ascii String Strings.Byte Lia.
From stdpp Require Import base option list strings.

Local Set Warnings "-register-all".
Local Open Scope N_scope.

(** ** Outcomes: a JavaScript completion is a value or a thrown exception *)

Inductive Exn :=
| TypeError
| SyntaxError
| RangeError
| HostError (name : string).

Inductive Outcome (A : Type) :=
| Return (a : A)
| Throw (e : Exn).
Arguments Return {A} a.
Arguments Throw {A} e.

Definition obind {A B} (m : Outcome A) (f : A -> Outcome B) : Outcome B :=
  match m with
  | Return a => f a
  | Throw e => Throw e
  end.

(** [Array.prototype.map] / the mapping argument of [Array.from], for a
    callback that can throw: the first exception ends the traversal. *)
Fixpoint omapM {A B} (f : A -> Outcome B) (xs : list A) : Outcome (list B) :=
  match xs with
  | [] => Return []
  | x :: xs' =>
      obind (f x) (fun y => obind (omapM f xs') (fun ys => Return (y :: ys)))
  end.

(** ** Digits, [toString(radix)] and the parsing of integer literals *)

(** The digit alphabet of [Number.prototype.toString] and
    [BigInt.prototype.toString]: ['0'..'9'] then ['a'..'z']. *)
Definition digit_char (d : N) : ascii :=
  if d <? 10 then ascii_of_N (48 + d) else ascii_of_N (87 + d).

(** The value of a digit in an integer literal; letters in either case. *)
Definition digit_value (c : ascii) : option N :=
  let n := N_of_ascii c in
  if (48 <=? n) && (n <=? 57) then Some (n - 48)
  else if (97 <=? n) && (n <=? 122) then Some (n - 87)
  else if (65 <=? n) && (n <=? 90) then Some (n - 55)
  else None.

(** Digits of [n] in base [radix], most significant first, pushed in front of
    [acc]. One digit is produced per unit of [fuel]. *)
Fixpoint to_digits (fuel : nat) (radix n : N) (acc : string) : string :=
  match fuel with
  | O => acc
  | S fuel' =>
      let acc' := String (digit_char (n mod radix)) acc in
      if n <? radix then acc' else to_digits fuel' radix (n / radix) acc'
  end.

(** A number below [2 ^ k] has at most [k] digits in any base from 2 up. *)
Definition N_digits (radix n : N) : string :=
  to_digits (S (N.to_nat (N.log2 n))) radix n "".

Definition radix_ok (radix : N) : bool := (2 <=? radix) && (radix <=? 36).

(** [BigInt.prototype.toString(radix)], also [Number.prototype.toString(radix)]
    on an integral number: a [RangeError] unless [2 <= radix <= 36]. *)
Definition Integer_toString (radix : N) (z : Z) : Outcome string :=
  if radix_ok radix then
    Return (if (z <? 0)%Z then "-" +:+ N_digits radix (Z.abs_N z)
            else N_digits radix (Z.abs_N z))
  else Throw RangeError.

(** Reading a run of digits in base [radix] on top of the value [acc]. *)
Fixpoint parse_digits (radix : N) (s : string) (acc : N) : option N :=
  match s with
  | EmptyString => Some acc
  | String c s' =>
      match digit_value c with
      | Some d => if d <? radix then parse_digits radix s' (acc * radix + d)
                  else None
      | None => None
      end
  end.

(** A literal needs at least one digit. *)
Definition parse_nat (radix : N) (s : string) : option N :=
  match s with
  | EmptyString => None
  | _ => parse_digits radix s 0
  end.

(** White space and line terminators, among the characters below 256. *)
Definition is_space (c : ascii) : bool :=
  let n := N_of_ascii c in
  ((9 <=? n) && (n <=? 13)) || (n =? 32) || (n =? 160).

Fixpoint trim_start (s : string) : string :=
  match s with
  | String c s' => if is_space c then trim_start s' else s
  | EmptyString => EmptyString
  end.

(** [trim_end] keeps a character when it, or something after it, is not
    white space. *)
Fixpoint trim_end (s : string) : string :=
  match s with
  | EmptyString => EmptyString
  | String c s' =>
      match trim_end s' with
      | EmptyString => if is_space c then EmptyString else String c EmptyString
      | t => String c t
      end
  end.

Definition trim (s : string) : string := trim_end (trim_start s).

Definition of_parse (sign : Z) (o : option N) : Outcome Z :=
  match o with
  | Some n => Return (sign * Z.of_N n)%Z
  | None => Throw SyntaxError
  end.

(** [BigInt(s)] on a string (StringToBigInt): the text is trimmed; the empty
    text is [0n]; [0x], [0o] and [0b] (either case) introduce an unsigned
    literal in base 16, 8 and 2; anything else is a decimal literal with an
    optional sign. Text that is no literal is a [SyntaxError]. *)
Definition BigInt_of_string (s : string) : Outcome Z :=
  match trim s with
  | EmptyString => Return 0%Z
  | String "0" (String "x" ds) | String "0" (String "X" ds) =>
      of_parse 1 (parse_nat 16 ds)
  | String "0" (String "o" ds) | String "0" (String "O" ds) =>
      of_parse 1 (parse_nat 8 ds)
  | String "0" (String "b" ds) | String "0" (String "B" ds) =>
      of_parse 1 (parse_nat 2 ds)
  | String "-" ds => of_parse (-1) (parse_nat 10 ds)
  | String "+" ds => of_parse 1 (parse_nat 10 ds)
  | ds => of_parse 1 (parse_nat 10 ds)
  end.

(** [String.prototype.padStart(targetLength, padString)]. *)
Fixpoint repeat_to (n : nat) (pad cur : string) : string :=
  match n with
  | O => EmptyString
  | S n' =>
      match cur with
      | String c cur' => String c (repeat_to n' pad cur')
      | EmptyString =>
          match pad with
          | String c pad' => String c (repeat_to n' pad pad')
          | EmptyString => EmptyString
          end
      end
  end.

Definition padStart (targetLength : nat) (padString s : string) : string :=
  repeat_to (targetLength - String.length s) padString padString +:+ s.

(** [Array.prototype.join(sep)] on strings. *)
Fixpoint join (sep : string) (xs : list string) : string :=
  match xs with
  | [] => EmptyString
  | [x] => x
  | x :: xs' => x +:+ sep +:+ join sep xs'
  end.

(** [s || d] on strings: the empty string is the only falsy one. *)
Definition or_else (s d : string) : string :=
  match s with
  | EmptyString => d
  | _ => s
  end.

(** ** Decoded values

    The values a CBOR decoder hands over: primitives, byte strings
    ([Uint8Array], or Node's [Buffer], which extends it), arrays, maps with
    text keys (plain objects, read by their first binding of a key), and
    symbols, which a decoder uses as markers.
    Numbers are [NaN] and the integers a double holds exactly, those of
    magnitude up to [2 ^ 53], which print in full in every base. *)

Inductive Value :=
| VUndefined
| VNull
| VBool (b : bool)
| VNumber (n : Z)
| VNaN
| VBigInt (z : Z)
| VString (s : string)
| VBytes (bs : list byte)
| VArray (xs : list Value)
| VObject (props : list (string * Value))
| VSymbol (description : string).

(** ToBoolean. *)
Definition truthy (v : Value) : bool :=
  match v with
  | VUndefined | VNull | VNaN => false
  | VBool b => b
  | VNumber n => negb (n =? 0)%Z
  | VBigInt z => negb (z =? 0)%Z
  | VString s => negb (String.eqb s "")
  | VBytes _ | VArray _ | VObject _ | VSymbol _ => true
  end.

Fixpoint assoc (k : string) (props : list (string * Value)) : option Value :=
  match props with
  | [] => None
  | (k', v) :: props' => if String.eqb k k' then Some v else assoc k props'
  end.

Definition number_of_nat (n : nat) : Value := VNumber (Z.of_nat n).

(** [v.k] for a property name [k] that is not an array index and not the
    name of an inherited method: an own property of an object, the [length]
    of a string, byte string or array, otherwise [undefined]. Reading a
    property of [undefined] or [null] is a [TypeError]. *)
Definition Get (v : Value) (k : string) : Outcome Value :=
  match v with
  | VUndefined | VNull => Throw TypeError
  | VObject props => Return (default VUndefined (assoc k props))
  | VString s =>
      Return (if String.eqb k "length" then number_of_nat (String.length s)
              else VUndefined)
  | VBytes bs =>
      Return (if String.eqb k "length" then number_of_nat (length bs)
              else VUndefined)
  | VArray xs =>
      Return (if String.eqb k "length" then number_of_nat (length xs)
              else VUndefined)
  | _ => Return VUndefined
  end.

(** [v instanceof Uint8Array || (typeof Buffer !== 'undefined' && v instanceof
    Buffer)]: a [Buffer] is a [Uint8Array], so both tests pick the byte
    strings. *)
Definition is_byte_sequence (v : Value) : bool :=
  match v with
  | VBytes _ => true
  | _ => false
  end.

Definition Array_isArray (v : Value) : bool :=
  match v with
  | VArray _ => true
  | _ => false
  end.

(** [v === 0] *)
Definition strict_eq_zero (v : Value) : bool :=
  match v with
  | VNumber n => (n =? 0)%Z
  | _ => false
  end.

Definition has_own (k : string) (props : list (string * Value)) : bool :=
  bool_decide (is_Some (assoc k props)).

Definition number_of_byte (b : byte) : Value := VNumber (Z.of_N (Byte.to_N b)).

(** ToString, as [Array.prototype.join] applies it to an element.
    An array or a byte string prints as its elements joined by commas, where
    [undefined] and [null] elements print as nothing. A plain object prints as
    [[object Object]], through the inherited [toString]; an own data property
    named [toString] hides that method and leaves the object without a
    primitive value, a [TypeError]. A symbol is not converted to a string,
    a [TypeError] too. *)
Fixpoint ToString (v : Value) : Outcome string :=
  match v with
  | VUndefined => Return "undefined"
  | VNull => Return "null"
  | VBool b => Return (if b then "true" else "false")
  | VNumber n => Integer_toString 10 n
  | VNaN => Return "NaN"
  | VBigInt z => Integer_toString 10 z
  | VString s => Return s
  | VBytes bs =>
      Return (join "," (map (fun b => N_digits 10 (Byte.to_N b)) bs))
  | VArray xs =>
      obind
        ((fix elements (ys : list Value) : Outcome (list string) :=
            match ys with
            | [] => Return []
            | y :: ys' =>
                obind (match y with
                       | VUndefined | VNull => Return EmptyString
                       | _ => ToString y
                       end)
                  (fun s => obind (elements ys') (fun ss => Return (s :: ss)))
            end) xs)
        (fun ss => Return (join "," ss))
  | VObject props =>
      if has_own "toString" props then Throw TypeError
      else Return "[object Object]"
  | VSymbol _ => Throw TypeError
  end.

(** The method call [v.toString(radix)]: the radix matters to numbers and
    bigints only, [undefined] and [null] have no methods, and a symbol
    prints as [Symbol(description)]. *)
Definition call_toString (radix : N) (v : Value) : Outcome string :=
  match v with
  | VUndefined | VNull => Throw TypeError
  | VNumber n => Integer_toString radix n
  | VBigInt z => Integer_toString radix z
  | VNaN => if radix_ok radix then Return "NaN" else Throw RangeError
  | VSymbol description => Return ("Symbol(" +:+ description +:+ ")")
  | _ => ToString v
  end.

Definition chars_of (s : string) : list Value :=
  map (fun c => VString (String c EmptyString)) (list_ascii_of_string s).

(** ** Effects: the console, and exceptions

    A computation leaves the lines it wrote to the console, in order, and
    ends in a value or in an exception. *)

Inductive Level := LevelError | LevelWarn | LevelLog.

Inductive LogArg :=
| LText (s : string)
| LValue (v : Value)
| LExn (e : Exn).

Record LogEntry := Console { level : Level; args : list LogArg }.

Definition Eff (A : Type) : Type := list LogEntry * Outcome A.

Definition eret {A} (a : A) : Eff A := ([], Return a).

Definition ebind {A B} (m : Eff A) (f : A -> Eff B) : Eff B :=
  match m with
  | (l, Return a) => let '(l', r) := f a in (l ++ l', r)
  | (l, Throw e) => (l, Throw e)
  end.

Definition lift {A} (o : Outcome A) : Eff A := ([], o).

Definition console (lvl : Level) (xs : list LogArg) : Eff unit :=
  ([Console lvl xs], Return tt).

(** [try { body } catch (error) { handler }] *)
Definition try_catch {A} (body : Eff A) (handler : Exn -> Eff A) : Eff A :=
  match body with
  | (l, Throw e) => let '(l', r) := handler e in (l ++ l', r)
  | (l, Return a) => (l, Return a)
  end.

Declare Scope eff_scope.
Delimit Scope eff_scope with eff.
Notation "x <- m ;; k" := (ebind m (fun x => k))
  (at level 100, m at next level, right associativity) : eff_scope.
Notation "m ;;; k" := (ebind m (fun _ => k))
  (at level 100, right associativity) : eff_scope.

(** A template literal with the index spliced in: [`...${index}...`]. *)
Definition index_text (index : nat) : string := N_digits 10 (N.of_nat index).

(** A record of the decoder's result. *)
Record Contribution := {
  bucketInBinary : string;
  valueInBinary : string;
  bucketInDecimal : string;
  valueInDecimal : string
}.

Section Decoder.

(** The platform functions the decoder calls and does not define:
    [atob], [cbor.decodeFirst] (awaited: a rejected promise is an exception
    at the [await]), and the elements [Array.from] finds in a plain object
    through its [length] and index properties. *)
Variable atob : string -> Outcome string.
Variable cbor_decodeFirst : list byte -> Outcome Value.
Variable array_like : list (string * Value) -> Outcome (list Value).

(** The elements [Array.from(v, f)] applies [f] to: those of an iterable
    (array, byte string, the characters of a string), those of an
    array-like object, and none for a number, boolean, bigint or symbol. *)
Definition Array_from_items (v : Value) : Outcome (list Value) :=
  match v with
  | VUndefined | VNull => Throw TypeError
  | VBytes bs => Return (map number_of_byte bs)
  | VArray xs => Return xs
  | VString s => Return (chars_of s)
  | VObject props => array_like props
  | _ => Return []
  end.

(** [Array.from(bytes, byte => byte.toString(16).padStart(2, '0')).join('')],
    which the source writes out three times. *)
Definition hex_of (bytes : Value) : Outcome string :=
  obind (Array_from_items bytes) (fun items =>
  obind (omapM (fun byte =>
           obind (call_toString 16 byte) (fun s =>
           Return (padStart 2 "0" s))) items) (fun parts =>
  Return (join "" parts))).

(** [BigInt(`0x${hex || '0'}`)] *)
Definition bigint_of_hex (hex : string) : Outcome Z :=
  BigInt_of_string ("0x" +:+ or_else hex "0").

(** The [try] block of [covertToBinary]. *)
Definition convert (bytes : Value) : Eff string :=
  (hex <- lift (hex_of bytes);;
   bigIntValue <- lift (bigint_of_hex hex);;
   s <- lift (Integer_toString 2 bigIntValue);;
   eret (or_else s "0"))%eff.

(** [!bytes || bytes.length === 0]: the right operand is evaluated for a
    truthy [bytes] only. It stands outside the [try] block. *)
Definition absent_or_empty (bytes : Value) : Eff bool :=
  if negb (truthy bytes) then eret true
  else (len <- lift (Get bytes "length");; eret (strict_eq_zero len))%eff.

Definition covertToBinary (bytes : Value) : Eff string :=
  (none <- absent_or_empty bytes;;
   if none : bool then eret "0"
   else
     try_catch (convert bytes)
       (fun error =>
          console LevelError
            [LText "Error during binary conversion:"; LExn error;
             LText "Input bytes:"; LValue bytes];;;
          eret "Error"))%eff.

(** [item && (item.k instanceof Uint8Array || ...)], as the condition it is
    used for: a falsy [item] is the result itself, and is falsy. *)
Definition valid_field (item : Value) (k : string) : Eff bool :=
  if truthy item then (v <- lift (Get item k);; eret (is_byte_sequence v))%eff
  else eret false.

(** The callback of [decoded.data.map]; [None] is the [null] that marks an
    element for filtering. *)
Definition processItem (item : Value) (index : nat)
  : Eff (option Contribution) :=
  (isBucketValid <- valid_field item "bucket";;
   isValueValid <- valid_field item "value";;
   if negb isBucketValid || negb isValueValid then
     console LevelWarn
       [LText ("Skipping invalid item at index " +:+ index_text index +:+ ".");
        LValue item];;;
     eret None
   else
     try_catch
       (valueBytes <- lift (Get item "value");;
        valueHex <- lift (hex_of valueBytes);;
        valueBigInt <- lift (bigint_of_hex valueHex);;
        if (valueBigInt =? 0)%Z then
          console LevelLog
            [LText ("Filtering out contribution at index " +:+
                    index_text index +:+ " due to zero value.")];;;
          eret None
        else
          bucket <- lift (Get item "bucket");;
          bucketInBinary <- covertToBinary bucket;;
          valueBits <- lift (Integer_toString 2 valueBigInt);;
          let valueInBinary := or_else valueBits "0" in
          bucketHex <- lift (hex_of bucket);;
          bucketBigInt <- lift (bigint_of_hex bucketHex);;
          bucketInDecimal <- lift (Integer_toString 10 bucketBigInt);;
          valueInDecimal <- lift (Integer_toString 10 valueBigInt);;
          eret (Some {| bucketInBinary := bucketInBinary;
                        valueInBinary := valueInBinary;
                        bucketInDecimal := bucketInDecimal;
                        valueInDecimal := valueInDecimal |}))
       (fun error =>
          console LevelError
            [LText ("Error processing item at index " +:+
                    index_text index +:+ ":");
             LExn error; LText "Item:"; LValue item];;;
          eret None))%eff.

(** [xs.map((item, index) => f(item, index))], from position [index] on. *)
Fixpoint map_indexed {A B} (f : A -> nat -> Eff B) (index : nat)
    (xs : list A) : Eff (list B) :=
  match xs with
  | [] => eret []
  | x :: xs' =>
      (y <- f x index;;
       ys <- map_indexed f (S index) xs';;
       eret (y :: ys))%eff
  end.

(** [xs.filter(item => item !== null)] *)
Definition non_null {A} (xs : list (option A)) : list A := omap id xs.

(** [new Uint8Array([...s].map((c) => c.charCodeAt(0)))] on the binary
    string [atob] returns, whose characters are below 256. *)
Definition char_codes (s : string) : list byte :=
  map byte_of_ascii (list_ascii_of_string s).

(** [!decoded || !Array.isArray(decoded.data)] *)
Definition mismatch (decoded : Value) : Eff bool :=
  if negb (truthy decoded) then eret true
  else (data <- lift (Get decoded "data");;
        eret (negb (Array_isArray data)))%eff.

(** [decodePayload] is an [async] function: an exception it ends in is the
    rejection of the promise it returns. *)
Definition decodePayload (payload : string) : Eff (list Contribution) :=
  (binary <- lift (atob payload);;
   let arr := char_codes binary in
   decoded <- lift (cbor_decodeFirst arr);;
   bad <- mismatch decoded;;
   if bad : bool then
     console LevelError
       [LText "Decoded CBOR structure mismatch. Expected { data: [...] }.";
        LText "Got:"; LValue decoded];;;
     eret []
   else
     data <- lift (Get decoded "data");;
     match data with
     | VArray items =>
         allContributions <- map_indexed processItem 0 items;;
         let validContributions := non_null allContributions in
         eret validContributions
     | _ => lift (Throw TypeError)
     end)%eff.

End Decoder.

(** ** The vocabulary of the contract *)

(** The unsigned big-endian integer denoted by a byte sequence. *)
Definition be_value_from (acc : N) (bs : list byte) : N :=
  fold_left (fun a b => a * 256 + Byte.to_N b) bs acc.

Definition be_value (bs : list byte) : N := be_value_from 0 bs.

Fixpoint all_chars (p : ascii -> bool) (s : string) : bool :=
  match s with
  | EmptyString => true
  | String c s' => p c && all_chars p s'
  end.

Definition is_bit (c : ascii) : bool := Ascii.eqb c "0" || Ascii.eqb c "1".

Definition is_decimal_digit (c : ascii) : bool :=
  let n := N_of_ascii c in (48 <=? n) && (n <=? 57).

(** A string over ['0'] and ['1']: a valid binary string has a digit. *)
Definition binary_string (s : string) : bool :=
  negb (String.eqb s "") && all_chars is_bit s.

Definition decimal_string (s : string) : bool :=
  negb (String.eqb s "") && all_chars is_decimal_digit s.

(** No superfluous leading zero: a leading ['0'] is the whole text. *)
Definition no_leading_zeros (s : string) : bool :=
  match s with
  | String "0" (String _ _) => false
  | _ => true
  end.

(** The canonical numeral of [n] in base [r]: one digit for a number below
    the base, otherwise the numeral of the quotient followed by one digit. *)
Inductive numeral (r : N) : N -> string -> Prop :=
| numeral_digit d :
    d < r -> numeral r d (String (digit_char d) EmptyString)
| numeral_snoc n s d :
    numeral r n s -> 0 < n -> d < r ->
    numeral r (n * r + d) (s +:+ String (digit_char d) EmptyString).

(** The hexadecimal text of a byte sequence, two digits a byte. *)
Definition hex_pair (b : byte) : string :=
  padStart 2 "0" (N_digits 16 (Byte.to_N b)).

Definition hex_text (bs : list byte) : string := join "" (map hex_pair bs).

(** The lines the decoder writes to the console. *)
Definition skip_warning (index : nat) (item : Value) : LogEntry :=
  Console LevelWarn
    [LText ("Skipping invalid item at index " +:+ index_text index +:+ ".");
     LValue item].

Definition zero_notice (index : nat) : LogEntry :=
  Console LevelLog
    [LText ("Filtering out contribution at index " +:+ index_text index +:+
            " due to zero value.")].

Definition mismatch_error (decoded : Value) : LogEntry :=
  Console LevelError
    [LText "Decoded CBOR structure mismatch. Expected { data: [...] }.";
     LText "Got:"; LValue decoded].

(** ** A reference platform

  An instance of the functions the decoder takes from its platform, to run
  it on payloads: [atob] as the forgiving base64 decoding of the HTML
  standard, and a CBOR decoder for the definite-length items the payloads
  are made of (integers, byte and text strings, arrays, maps with text
  keys, and the simple values). The library decodes more than that
  (items of indefinite length, floats, tags); this instance refuses those,
  and is to be run on the items it reads only. *)

Module Platform.

Definition is_ascii_whitespace (c : ascii) : bool :=
  let n := N_of_ascii c in
  (n =? 9) || (n =? 10) || (n =? 12) || (n =? 13) || (n =? 32).

Definition sextet (c : ascii) : option N :=
  let n := N_of_ascii c in
  if (65 <=? n) && (n <=? 90) then Some (n - 65)
  else if (97 <=? n) && (n <=? 122) then Some (n - 71)
  else if (48 <=? n) && (n <=? 57) then Some (n + 4)
  else if n =? 43 then Some 62
  else if n =? 47 then Some 63
  else None.

Definition strip_padding (cs : list ascii) : list ascii :=
  if (length cs mod 4 =? 0)%nat then
    match rev cs with
    | "="%char :: "="%char :: cs' => rev cs'
    | "="%char :: cs' => rev cs'
    | _ => cs
    end
  else cs.

Fixpoint octets (xs : list N) : list N :=
  match xs with
  | a :: b :: c :: d :: rest =>
      (a * 4 + b / 16) :: ((b mod 16) * 16 + c / 4) :: ((c mod 4) * 64 + d)
      :: octets rest
  | [a; b; c] => [a * 4 + b / 16; (b mod 16) * 16 + c / 4]
  | [a; b] => [a * 4 + b / 16]
  | _ => []
  end.

Definition atob (data : string) : Outcome string :=
  let cs :=
    strip_padding
      (List.filter (fun c => negb (is_ascii_whitespace c))
         (list_ascii_of_string data)) in
  if (length cs mod 4 =? 1)%nat
  then Throw (HostError "InvalidCharacterError")
  else
    match mapM sextet cs with
    | Some xs => Return (string_of_list_ascii (map ascii_of_N (octets xs)))
    | None => Throw (HostError "InvalidCharacterError")
    end.

(** The argument of an item head: the low five bits, or the big-endian
    integer in the 1, 2, 4 or 8 bytes that follow. *)
Definition argument (info : N) (bs : list byte) : option (N * list byte) :=
  let wide (k : nat) :=
    if (k <=? length bs)%nat then Some (be_value (take k bs), drop k bs)
    else None in
  if info <? 24 then Some (info, bs)
  else if info =? 24 then wide 1%nat
  else if info =? 25 then wide 2%nat
  else if info =? 26 then wide 4%nat
  else if info =? 27 then wide 8%nat
  else None.

Definition text_of (bs : list byte) : string :=
  string_of_list_ascii (map ascii_of_byte bs).

(** An integer of argument [n]: a number up to 53 bits, a bigint above. *)
Definition integer (n : N) (z : Z) : Value :=
  if n <? 2 ^ 53 then VNumber z else VBigInt z.

(** Pairs of a map, the later binding of a key in front. *)
Fixpoint bindings (kvs : list Value) (acc : list (string * Value))
  : option (list (string * Value)) :=
  match kvs with
  | VString k :: v :: kvs' => bindings kvs' ((k, v) :: acc)
  | [] => Some acc
  | _ => None
  end.

Fixpoint decode_item (fuel : nat) (bs : list byte)
  : option (Value * list byte) :=
  match fuel, bs with
  | S fuel', h :: t =>
      let major := Byte.to_N h / 32 in
      let info := Byte.to_N h mod 32 in
      if major =? 7 then
        if info =? 20 then Some (VBool false, t)
        else if info =? 21 then Some (VBool true, t)
        else if info =? 22 then Some (VNull, t)
        else if info =? 23 then Some (VUndefined, t)
        else None
      else
        '(n, rest) ← argument info t;
        if major =? 0 then Some (integer n (Z.of_N n), rest)
        else if major =? 1 then Some (integer n (-1 - Z.of_N n), rest)
        else if (major =? 2) || (major =? 3) then
          let k := N.to_nat n in
          if (k <=? length rest)%nat then
            Some (if major =? 2 then VBytes (take k rest)
                  else VString (text_of (take k rest)), drop k rest)
          else None
        else if major =? 4 then
          if n <=? N.of_nat (length rest) then
            '(xs, rest') ← decode_seq fuel' (N.to_nat n) rest;
            Some (VArray xs, rest')
          else None
        else if major =? 5 then
          if 2 * n <=? N.of_nat (length rest) then
            '(kvs, rest') ← decode_seq fuel' (2 * N.to_nat n) rest;
            props ← bindings kvs [];
            Some (VObject props, rest')
          else None
        else None
  | _, _ => None
  end
with decode_seq (fuel count : nat) (bs : list byte)
  : option (list Value * list byte) :=
  match fuel, count with
  | _, O => Some ([], bs)
  | S fuel', S count' =>
      '(v, rest) ← decode_item fuel' bs;
      '(vs, rest') ← decode_seq fuel' count' rest;
      Some (v :: vs, rest')
  | O, _ => None
  end.

(** The marker [NOT_FOUND] of the library, a symbol. *)
Definition not_found : Value := VSymbol "not found".

(** [cbor.decodeFirst], with its default options: the one item the input
    holds. In no bytes there is no item: the promise is then resolved, with
    the marker [NOT_FOUND], and not rejected. Bytes that follow the item
    are refused. *)
Definition decodeFirst (input : list byte) : Outcome Value :=
  match input with
  | [] => Return not_found
  | _ =>
      match decode_item (2 * length input + 2) input with
      | Some (v, []) => Return v
      | Some (_, _ :: _) => Throw (HostError "UnexpectedData")
      | None => Throw (HostError "CborDecodeError")
      end
  end.

(** The elements of an array-like plain object: those at the index keys
    below its [length]. This instance reads a [length] that is absent,
    [undefined], [null], a boolean or a number; [Array.from] refuses a
    length of [2 ^ 32] or more with a [RangeError] and a bigint with a
    [TypeError], which is also what this instance answers for the lengths
    it does not read. *)
Definition array_like (props : list (string * Value))
  : Outcome (list Value) :=
  let elements (len : Z) :=
    if (len <? 2 ^ 32)%Z then
      Return (map (fun i => default VUndefined (assoc (index_text i) props))
                (seq 0 (Z.to_nat len)))
    else Throw RangeError in
  match default VUndefined (assoc "length" props) with
  | VUndefined | VNull | VNaN => Return []
  | VBool b => elements (if b then 1 else 0)%Z
  | VNumber n => elements n
  | _ => Throw TypeError
  end.

Definition decode : string -> Eff (list Contribution) :=
  decodePayload atob decodeFirst array_like.

End Platform.

(** ** Payloads *)

Module Samples.

(** [{data: [{bucket: h'01', value: h'02'}]}] *)
Definition one : string := "oWRkYXRhgaJmYnVja2V0QQFldmFsdWVBAg==".

(** [{data: [{bucket: h'00', value: h'00'}]}] *)
Definition zero : string := "oWRkYXRhgaJmYnVja2V0QQBldmFsdWVBAA==".

(** [{data: [{bucket: h'ff', value: h'01'}, {bucket: h'00', value: h'00'},
    {bucket: h'10', value: h'10'}]}] *)
Definition three : string :=
  "oWRkYXRhg6JmYnVja2V0Qf9ldmFsdWVBAaJmYnVja2V0QQBldmFsdWVBAKJmYnVja2V0QRBldmFsdWVBEA==".

(** [{data: [{bucket: h'05', value: h'03'}, {bucket: 7, value: h'01'},
    {bucket: h'0002', value: h'0100'}]}] *)
Definition mistyped : string :=
  "oWRkYXRhg6JmYnVja2V0QQVldmFsdWVBA6JmYnVja2V0B2V2YWx1ZUEBomZidWNrZXRCAAJldmFsdWVCAQA=".

(** [{data: 5}] *)
Definition no_array : string := "oWRkYXRhBQ==".

(** Base64 of the single byte [ff], which starts no CBOR item. *)
Definition not_cbor : string := "/w==".

(** Not base64. *)
Definition not_base64 : string := "!!!".

(** The [data] arrays of [three] and [mistyped], as decoded: a map lists
    its later pairs first. *)
Definition three_items : list Value :=
  [VObject [("value", VBytes ["001"%byte]); ("bucket", VBytes ["255"%byte])];
   VObject [("value", VBytes ["000"%byte]); ("bucket", VBytes ["000"%byte])];
   VObject [("value", VBytes ["016"%byte]); ("bucket", VBytes ["016"%byte])]].

Definition mistyped_item : Value :=
  VObject [("value", VBytes ["001"%byte]); ("bucket", VNumber 7)].

Definition mistyped_items : list Value :=
  [VObject [("value", VBytes ["003"%byte]); ("bucket", VBytes ["005"%byte])];
   mistyped_item;
   VObject [("value", VBytes ["001"%byte; "000"%byte]);
            ("bucket", VBytes ["000"%byte; "002"%byte])]].

Definition record (bb vb bd vd : string) : Contribution :=
  {| bucketInBinary := bb; valueInBinary := vb;
     bucketInDecimal := bd; valueInDecimal := vd |}.

End Samples.

(** ** The page

    [renderOutput] and [runDecoder] work on the document. The page itself is
    not among the sources: the document is taken to hold at most one element
    with the id [decoder-output-body], a table body, and at most one element
    of the class [decoder__input], a text control. A table body holds the
    markup last assigned to its [innerHTML] and, after it, the rows inserted
    since; a row and a cell are named by their positions. *)

Inductive CellContent :=
| NoContent
| TextContent (text : string)
| InnerHTML (html : string).

Record Cell := { colSpan : nat; content : CellContent }.

Record Row := { className : string; cells : list Cell }.

Record TableBody := { markup : string; rows : list Row }.

Record Document := {
  outputBody : option TableBody;
  decoderInput : option string
}.

(** A computation on the page: the document it leaves, with what it wrote to
    the console and how it ended. What was changed before an exception stays
    changed. *)
Definition Page (A : Type) : Type := Document -> Document * Eff A.

Definition pret {A} (a : A) : Page A := fun d => (d, eret a).

Definition pbind {A B} (m : Page A) (f : A -> Page B) : Page B :=
  fun d =>
    match m d with
    | (d', (l, Return a)) => let '(d'', (l', r)) := f a d' in (d'', (l ++ l', r))
    | (d', (l, Throw e)) => (d', (l, Throw e))
    end.

Definition plift {A} (m : Eff A) : Page A := fun d => (d, m).

(** [try { body } catch (error) { handler }] on the page. *)
Definition ptry {A} (body : Page A) (handler : Exn -> Page A) : Page A :=
  fun d =>
    match body d with
    | (d', (l, Throw e)) =>
        let '(d'', (l', r)) := handler e d' in (d'', (l ++ l', r))
    | (d', (l, Return a)) => (d', (l, Return a))
    end.

Declare Scope page_scope.
Delimit Scope page_scope with page.
Notation "x <- m ;; k" := (pbind m (fun x => k))
  (at level 100, m at next level, right associativity) : page_scope.
Notation "m ;;; k" := (pbind m (fun _ => k))
  (at level 100, right associativity) : page_scope.

(** [document.getElementById('decoder-output-body')], as the condition it is
    tested for: found, or [null]. *)
Definition getOutputBody : Page bool :=
  fun d => (d, eret (bool_decide (is_Some (outputBody d)))).

(** A change of the table body; on [null] it is a [TypeError]. *)
Definition on_body {A} (f : TableBody -> A * TableBody) : Page A :=
  fun d =>
    match outputBody d with
    | Some b =>
        let '(a, b') := f b in
        ({| outputBody := Some b'; decoderInput := decoderInput d |}, eret a)
    | None => (d, lift (Throw TypeError))
    end.

(** [tableBody.innerHTML = html]: the children are replaced by what [html]
    parses to. *)
Definition set_body_innerHTML (html : string) : Page unit :=
  on_body (fun _ => (tt, {| markup := html; rows := [] |})).

(** [tableBody.insertRow()]: a new last row, without class and cells. *)
Definition insertRow : Page nat :=
  on_body (fun b =>
    (length (rows b),
     {| markup := markup b;
        rows := rows b ++ [{| className := ""; cells := [] |}] |})).

Definition on_row {A} (row : nat) (f : Row -> A * Row) (a0 : A) : Page A :=
  on_body (fun b =>
    (from_option (fun r => fst (f r)) a0 (rows b !! row),
     {| markup := markup b; rows := alter (fun r => snd (f r)) row (rows b) |})).

(** [row.className = name] *)
Definition set_className (row : nat) (name : string) : Page unit :=
  on_row row (fun r => (tt, {| className := name; cells := cells r |})) tt.

(** [row.insertCell()]: a new last cell, spanning one column, empty. *)
Definition insertCell (row : nat) : Page nat :=
  on_row row (fun r =>
    (length (cells r),
     {| className := className r;
        cells := cells r ++ [{| colSpan := 1; content := NoContent |}] |}))
    O.

Definition on_cell (row cell : nat) (f : Cell -> Cell) : Page unit :=
  on_row row (fun r =>
    (tt, {| className := className r; cells := alter f cell (cells r) |})) tt.

(** [cell.colSpan = n] *)
Definition set_colSpan (row cell n : nat) : Page unit :=
  on_cell row cell (fun c => {| colSpan := n; content := content c |}).

(** [cell.textContent = text] *)
Definition set_textContent (row cell : nat) (text : string) : Page unit :=
  on_cell row cell (fun c =>
    {| colSpan := colSpan c; content := TextContent text |}).

(** [cell.innerHTML = html] *)
Definition set_innerHTML (row cell : nat) (html : string) : Page unit :=
  on_cell row cell (fun c =>
    {| colSpan := colSpan c; content := InnerHTML html |}).

(** [document.querySelector('.decoder__input').value]: a [TypeError] when no
    element matched. *)
Definition input_value : Page string :=
  fun d =>
    match decoderInput d with
    | Some value => (d, eret value)
    | None => (d, lift (Throw TypeError))
    end.

(** [xs.forEach(f)] *)
Fixpoint forEach {A} (f : A -> Page unit) (xs : list A) : Page unit :=
  match xs with
  | [] => pret tt
  | x :: xs' => (f x;;; forEach f xs')%page
  end.

(** A text between double quotes. *)
Definition quoted (text : string) : string :=
  String "034"%char text +:+ String "034"%char EmptyString.

(** [`<code>${text}</code>`] *)
Definition code (text : string) : string := "<code>" +:+ text +:+ "</code>".

(** [!contributions || contributions.length === 0], where [None] is a
    missing ([undefined] or [null]) argument. *)
Definition nothing_to_show (contributions : option (list Contribution))
  : bool :=
  match contributions with
  | None => true
  | Some cs => (length cs =? 0)%nat
  end.

Definition renderOutput (contributions : option (list Contribution))
  : Page unit :=
  (tableBody <- getOutputBody;;
   if negb tableBody then
     plift (console LevelError
              [LText "Output table body 'decoder-output-body' not found."])
   else
     set_body_innerHTML "";;;
     if nothing_to_show contributions then
       row <- insertRow;;
       set_className row "no-data-row";;;
       cell <- insertCell row;;
       set_colSpan row cell 4;;;
       set_textContent row cell
         "No valid contributions with non-zero value found."
     else
       forEach (fun contribution =>
         row <- insertRow;;
         cellBucketBin <- insertCell row;;
         cellValueBin <- insertCell row;;
         cellBucketDec <- insertCell row;;
         cellValueDec <- insertCell row;;
         set_innerHTML row cellBucketBin
           (code (bucketInBinary contribution));;;
         set_innerHTML row cellValueBin
           (code (valueInBinary contribution));;;
         set_innerHTML row cellBucketDec
           (code (bucketInDecimal contribution));;;
         set_innerHTML row cellValueDec
           (code (valueInDecimal contribution)))
         (default [] contributions))%page.

Section Runner.

Variable atob : string -> Outcome string.
Variable cbor_decodeFirst : list byte -> Outcome Value.
Variable array_like : list (string * Value) -> Outcome (list Value).

(** [error.message], which the platform words. *)
Variable message : Exn -> string.

(** The markup of the failure row:
    [`<tr class="no-data-row"><td colspan="4">Error during decoding:
    ${error.message}. Check console.</td></tr>`]. *)
Definition failure_markup (error : Exn) : string :=
  "<tr class=" +:+ quoted "no-data-row" +:+ "><td colspan=" +:+ quoted "4"
  +:+ ">Error during decoding: " +:+ message error
  +:+ ". Check console.</td></tr>".

(** One run of [runDecoder], with nothing else at work on the page between
    its start and the end of the awaited decode. *)
Definition runDecoder : Page unit :=
  (payload <- input_value;;
   renderOutput (Some []);;;
   if negb (truthy (VString payload)) then
     plift (console LevelLog [LText "Input payload is empty."])
   else
     ptry
       (outputArray <-
          plift (decodePayload atob cbor_decodeFirst array_like payload);;
        renderOutput (Some outputArray))
       (fun error =>
          plift (console LevelError
                   [LText "Error during decoding process:"; LExn error]);;;
          tableBody <- getOutputBody;;
          if tableBody : bool then set_body_innerHTML (failure_markup error)
          else pret tt))%page.

End Runner.

(** The row [renderOutput] builds for a record, and the row it shows for
    none. *)
Definition code_cell (text : string) : Cell :=
  {| colSpan := 1; content := InnerHTML (code text) |}.

Definition data_row (c : Contribution) : Row :=
  {| className := "";
     cells := [code_cell (bucketInBinary c); code_cell (valueInBinary c);
               code_cell (bucketInDecimal c); code_cell (valueInDecimal c)] |}.

Definition no_data_row : Row :=
  {| className := "no-data-row";
     cells := [{| colSpan := 4;
                  content := TextContent
                    "No valid contributions with non-zero value found." |}] |}.

(** The table body [renderOutput] leaves. *)
Definition rendered (contributions : option (list Contribution)) : TableBody :=
  {| markup := "";
     rows := if nothing_to_show contributions then [no_data_row]
             else map data_row (default [] contributions) |}.

(** A reference wording of error messages, for running the page. *)
Module SamplePage.

Definition message (e : Exn) : string :=
  match e with
  | TypeError => "type error"
  | SyntaxError => "syntax error"
  | RangeError => "range error"
  | HostError name => name
  end.

Definition run : Page unit :=
  runDecoder Platform.atob Platform.decodeFirst Platform.array_like message.

(** A page with both elements, the table still showing an earlier result. *)
Definition page (payload : string) : Document :=
  {| outputBody :=
       Some {| markup := "<tr><td>stale</td></tr>";
               rows := [{| className := "old"; cells := [] |}] |};
     decoderInput := Some payload |}.

End SamplePage.

(** More payloads: the first element of [Samples.three] alone, and its
    other two. *)
Module MoreSamples.

Definition front : string := "oWRkYXRhgaJmYnVja2V0Qf9ldmFsdWVBAQ==".

Definition rear : string :=
  "oWRkYXRhgqJmYnVja2V0QQBldmFsdWVBAKJmYnVja2V0QRBldmFsdWVBEA==".

Definition front_items : list Value := take 1 Samples.three_items.

Definition rear_items : list Value := drop 1 Samples.three_items.

Definition kept : list Contribution :=
  [Samples.record "11111111" "1" "255" "1";
   Samples.record "10000" "10000" "16" "16"].

End MoreSamples.

(** ** Strings *)

Lemma app_cons c (s t : string) : String c s +:+ t = String c (s +:+ t).
Proof. reflexivity. Qed.

Lemma app_empty_l (t : string) : "" +:+ t = t.
Proof. reflexivity. Qed.

Lemma app_empty_r (s : string) : s +:+ "" = s.
Proof.
  induction s as [|c s IH]; [reflexivity | now rewrite app_cons, IH].
Qed.

Lemma app_assoc_str (s t u : string) : (s +:+ t) +:+ u = s +:+ (t +:+ u).
Proof.
  induction s as [|c s IH]; [reflexivity | now rewrite !app_cons, IH].
Qed.

Lemma all_chars_app p s t :
  all_chars p (s +:+ t) = all_chars p s && all_chars p t.
Proof.
  induction s as [|c s IH]; [reflexivity |].
  rewrite app_cons. simpl. now rewrite IH, andb_assoc.
Qed.

Lemma join_empty_cons (x : string) (xs : list string) :
  join "" (x :: xs) = x +:+ join "" xs.
Proof.
  destruct xs as [|y ys]; cbn [join]; [now rewrite app_empty_r | reflexivity].
Qed.

(** ** Digits *)

Ltac cases_N :=
  repeat match goal with
    | |- context [?a <=? ?b] => destruct (N.leb_spec a b)
    | |- context [?a <? ?b] => destruct (N.ltb_spec a b)
    | |- context [?a =? ?b] => destruct (N.eqb_spec a b)
    end; simpl; try lia.

Lemma digit_value_char d : d < 36 -> digit_value (digit_char d) = Some d.
Proof.
  intros Hd. unfold digit_value, digit_char.
  destruct (N.ltb_spec d 10).
  - rewrite N_ascii_embedding by lia. cases_N. f_equal; lia.
  - rewrite N_ascii_embedding by lia. cases_N. f_equal; lia.
Qed.

Lemma digit_value_not_space c d : digit_value c = Some d -> is_space c = false.
Proof.
  unfold digit_value, is_space. cbv zeta. generalize (N_of_ascii c) as n.
  intros n. cases_N; discriminate.
Qed.

Lemma digit_char_zero d : d < 36 -> digit_char d = "0"%char -> d = 0.
Proof.
  intros Hd E. pose proof (digit_value_char d Hd) as V.
  rewrite E in V. now inversion V.
Qed.

Lemma parse_digits_app r s t a :
  parse_digits r (s +:+ t) a =
  match parse_digits r s a with
  | Some v => parse_digits r t v
  | None => None
  end.
Proof.
  revert a. induction s as [|c s IH]; intros a; [reflexivity |].
  rewrite app_cons. simpl.
  destruct (digit_value c) as [d|]; [|reflexivity].
  destruct (d <? r); [apply IH | reflexivity].
Qed.

Lemma parse_digits_trim_end r s a v :
  parse_digits r s a = Some v -> trim_end s = s.
Proof.
  revert a. induction s as [|c s IH]; intros a; simpl; [reflexivity |].
  destruct (digit_value c) as [d|] eqn:D; [|discriminate].
  destruct (d <? r); [|discriminate]. intros P.
  rewrite (IH _ P), (digit_value_not_space _ _ D). now destruct s.
Qed.

Section Radix.

Variable r : N.
Hypothesis r_ok : 2 <= r <= 36.

Lemma to_digits_numeral fuel : forall n acc,
  n < r ^ N.of_nat (S fuel) ->
  exists s, to_digits (S fuel) r n acc = s +:+ acc /\ numeral r n s.
Proof.
  induction fuel as [|fuel IH]; intros n acc Hn.
  - change (N.of_nat 1) with 1 in Hn. rewrite N.pow_1_r in Hn.
    exists (String (digit_char n) ""). simpl.
    destruct (N.ltb_spec n r); [|lia].
    rewrite N.mod_small by lia. split; [reflexivity | now constructor].
  - cbn [to_digits]. destruct (N.ltb_spec n r) as [Hlt|Hge].
    + exists (String (digit_char n) ""). rewrite N.mod_small by lia.
      split; [reflexivity | now constructor].
    + destruct (IH (n / r) (String (digit_char (n mod r)) acc))
        as (s & E & Hs).
      * apply N.Div0.div_lt_upper_bound.
        rewrite <- N.pow_succ_r'. now rewrite <- Nat2N.inj_succ.
      * exists (s +:+ String (digit_char (n mod r)) "").
        cbn [to_digits] in E. rewrite E, app_assoc_str. split; [reflexivity|].
        replace n with (n / r * r + n mod r) at 1
          by (rewrite (N.div_mod' n r) at 3; lia).
        constructor; [assumption | | apply N.mod_lt; lia].
        apply N.div_str_pos; lia.
Qed.

Lemma N_digits_numeral n : numeral r n (N_digits r n).
Proof.
  unfold N_digits.
  destruct (to_digits_numeral (N.to_nat (N.log2 n)) n "") as (s & E & Hs).
  - rewrite Nat2N.inj_succ, N2Nat.id.
    apply N.lt_le_trans with (2 ^ N.succ (N.log2 n)).
    + destruct (N.eq_dec n 0) as [->|Hn]; [reflexivity|].
      apply N.log2_spec; lia.
    + apply N.pow_le_mono_l; lia.
  - rewrite E, app_empty_r. exact Hs.
Qed.

Lemma numeral_parse n s : numeral r n s -> parse_digits r s 0 = Some n.
Proof.
  induction 1 as [d Hd | n s d _ IH Hn Hd].
  - simpl. rewrite digit_value_char by lia.
    destruct (N.ltb_spec d r); [reflexivity | lia].
  - rewrite parse_digits_app, IH. simpl. rewrite digit_value_char by lia.
    destruct (N.ltb_spec d r); [reflexivity | lia].
Qed.

Lemma numeral_nonempty n s : numeral r n s -> s <> EmptyString.
Proof.
  destruct 1 as [d Hd | n s d _ _ _]; [discriminate |].
  destruct s; discriminate.
Qed.

Lemma numeral_chars (p : ascii -> bool) n s :
  (forall d, d < r -> p (digit_char d) = true) ->
  numeral r n s -> all_chars p s = true.
Proof.
  intros Hp. induction 1 as [d Hd | n s d _ IH Hn Hd]; simpl.
  - now rewrite Hp.
  - rewrite all_chars_app, IH. simpl. now rewrite Hp.
Qed.

Lemma numeral_head n s :
  numeral r n s ->
  (n = 0 -> s = "0") /\
  (0 < n -> exists c t, s = String c t /\ c <> "0"%char).
Proof.
  induction 1 as [d Hd | n s d _ IH Hn Hd].
  - split.
    + now intros ->.
    + intros Hpos. exists (digit_char d), EmptyString. split; [reflexivity|].
      intros E. apply digit_char_zero in E; lia.
  - split; [nia|]. intros _.
    destruct IH as [_ (c & t & -> & Hc)]; [assumption|].
    now exists c, (t +:+ String (digit_char d) "").
Qed.

Lemma numeral_no_leading_zeros n s :
  numeral r n s -> no_leading_zeros s = true.
Proof.
  intros H. destruct (numeral_head n s H) as [H0 Hpos].
  destruct (N.eq_dec n 0) as [E|E].
  - now rewrite (H0 E).
  - destruct Hpos as (c & t & -> & Hc); [lia|]. simpl.
    destruct c as [[] [] [] [] [] [] [] []]; try reflexivity.
    now contradiction Hc.
Qed.

Lemma numeral_zero n s : numeral r n s -> s = "0" -> n = 0.
Proof.
  intros H ->. apply numeral_parse in H.
  change (parse_digits r "0" 0)
    with (if 0 <? r then Some (0 * r + 0) else None) in H.
  destruct (0 <? r); [|discriminate]. inversion H. lia.
Qed.

End Radix.

(** ** Byte sequences as hexadecimal text *)

Lemma Integer_toString_N r n :
  radix_ok r = true -> Integer_toString r (Z.of_N n) = Return (N_digits r n).
Proof.
  intros Hr. unfold Integer_toString. rewrite Hr, Zabs2N.id.
  destruct (Z.ltb_spec (Z.of_N n) 0); [lia | reflexivity].
Qed.

Lemma hex_pair_digits b :
  hex_pair b =
  String (digit_char (Byte.to_N b / 16))
    (String (digit_char (Byte.to_N b mod 16)) "").
Proof. destruct b; vm_compute; reflexivity. Qed.

Lemma hex_text_cons b bs : hex_text (b :: bs) = hex_pair b +:+ hex_text bs.
Proof. unfold hex_text. simpl map. apply join_empty_cons. Qed.

Lemma parse_hex_text bs : forall a,
  parse_digits 16 (hex_text bs) a = Some (be_value_from a bs).
Proof.
  induction bs as [|b bs IH]; intros a; [reflexivity |].
  rewrite hex_text_cons, hex_pair_digits, !app_cons, app_empty_l.
  pose proof (Byte.to_N_bounded b) as Hb.
  assert (Hhi : Byte.to_N b / 16 < 16)
    by (apply N.Div0.div_lt_upper_bound; lia).
  assert (Hlo : Byte.to_N b mod 16 < 16) by (apply N.mod_lt; lia).
  cbn [parse_digits]. rewrite !digit_value_char by lia.
  destruct (N.ltb_spec (Byte.to_N b / 16) 16); [|lia].
  destruct (N.ltb_spec (Byte.to_N b mod 16) 16); [|lia].
  rewrite IH. unfold be_value_from. simpl fold_left. do 2 f_equal.
  rewrite (N.div_mod' (Byte.to_N b) 16) at 3. lia.
Qed.

Lemma hex_text_empty bs : hex_text bs = "" -> bs = [].
Proof.
  destruct bs as [|b bs]; [reflexivity |].
  rewrite hex_text_cons, hex_pair_digits. discriminate.
Qed.

Lemma BigInt_of_hex_literal ds n :
  ds <> "" -> parse_digits 16 ds 0 = Some n ->
  BigInt_of_string ("0x" +:+ ds) = Return (Z.of_N n).
Proof.
  intros Hne P. unfold BigInt_of_string, trim.
  change ("0x" +:+ ds) with (String "0" (String "x" ds)).
  change (trim_start (String "0" (String "x" ds)))
    with (String "0" (String "x" ds)).
  assert (E : trim_end (String "0" (String "x" ds))
              = String "0" (String "x" ds)).
  { cbn [trim_end]. rewrite (parse_digits_trim_end _ _ _ _ P).
    destruct ds; [now contradiction Hne | reflexivity]. }
  rewrite E. unfold parse_nat. destruct ds; [now contradiction Hne |].
  rewrite P. unfold of_parse. f_equal. lia.
Qed.

Lemma bigint_of_hex_text bs :
  bigint_of_hex (hex_text bs) = Return (Z.of_N (be_value bs)).
Proof.
  unfold bigint_of_hex. pose proof (parse_hex_text bs 0) as P.
  destruct (hex_text bs) as [|c h] eqn:E.
  - apply hex_text_empty in E. subst bs. reflexivity.
  - apply BigInt_of_hex_literal; [discriminate | exact P].
Qed.

Lemma be_value_zeros bs :
  Forall (fun b => Byte.to_N b = 0) bs -> be_value bs = 0.
Proof.
  unfold be_value, be_value_from.
  induction 1 as [|b bs Hb _ IH]; [reflexivity |].
  simpl fold_left. now rewrite Hb.
Qed.

(** ** Running the monad *)

Lemma ebind_eret {A B} (a : A) (f : A -> Eff B) : ebind (eret a) f = f a.
Proof. unfold ebind, eret. now destruct (f a). Qed.

Lemma ebind_lift_return {A B} (a : A) (f : A -> Eff B) :
  ebind (lift (Return a)) f = f a.
Proof. apply ebind_eret. Qed.

Lemma ebind_lift_throw {A B} e (f : A -> Eff B) :
  ebind (lift (Throw e)) f = lift (Throw e).
Proof. reflexivity. Qed.

Lemma ebind_return {A B} l (a : A) (f : A -> Eff B) l' r :
  f a = (l', r) -> ebind (l, Return a) f = (l ++ l', r).
Proof. intros E. unfold ebind. now rewrite E. Qed.

(** ** Mapping over an array, and dropping the [null]s *)

Lemma map_indexed_total {A B} (f : A -> nat -> Eff B) :
  (forall x k, exists l y, f x k = (l, Return y)) ->
  forall xs k, exists ls ys, map_indexed f k xs = (ls, Return ys).
Proof.
  intros Hf. induction xs as [|x xs IH]; intros k.
  - now exists [], [].
  - destruct (Hf x k) as (l & y & E). destruct (IH (S k)) as (ls & ys & Es).
    exists (l ++ ls ++ []), (y :: ys). cbn [map_indexed].
    rewrite E. apply ebind_return. rewrite Es. now apply ebind_return.
Qed.

Lemma map_indexed_inv {A B} (f : A -> nat -> Eff B) xs :
  forall k ls ys,
    map_indexed f k xs = (ls, Return ys) ->
    length ys = length xs /\
    forall j x, xs !! j = Some x ->
      exists l y, f x (k + j)%nat = (l, Return y) /\ ys !! j = Some y /\
                  l `sublist_of` ls.
Proof.
  induction xs as [|x xs IH]; intros k ls ys E.
  - inversion E. split; [reflexivity | intros j x Hj; discriminate].
  - cbn [map_indexed] in E. destruct (f x k) as [l [y|e]] eqn:Ex;
      [|discriminate].
    destruct (map_indexed f (S k) xs) as [ls' [ys'|e]] eqn:Es;
      cbn in E; [|discriminate].
    inversion E; subst ls ys; clear E.
    destruct (IH _ _ _ Es) as [Hlen Hlook]. split; [simpl; lia |].
    intros [|j] x' Hj.
    + inversion Hj; subst x'. exists l, y. rewrite Nat.add_0_r.
      split; [assumption | split; [reflexivity |]].
      now apply sublist_inserts_r.
    + destruct (Hlook j x' Hj) as (l' & y' & E' & Hy & Hsub).
      exists l', y'. replace (k + S j)%nat with (S k + j)%nat by lia.
      split; [assumption | split; [exact Hy |]].
      now apply sublist_inserts_l, sublist_inserts_r.
Qed.

Lemma non_null_filter {A} (xs : list (option A)) :
  Some <$> non_null xs = filter is_Some xs.
Proof.
  unfold non_null. induction xs as [|[x|] xs IH]; [reflexivity | |].
  - rewrite filter_cons_True by eauto. cbn. now rewrite <- IH.
  - rewrite filter_cons_False by (intros []; discriminate). exact IH.
Qed.

Lemma non_null_length {A} (xs : list (option A)) :
  (length (non_null xs) <= length xs)%nat /\
  (length (non_null xs) = length xs <-> Forall is_Some xs).
Proof.
  unfold non_null. induction xs as [|[x|] xs [IHle IHeq]]; cbn.
  - split; [lia | split; [constructor | reflexivity]].
  - split; [lia |]. split.
    + intros E. constructor; [eauto | apply IHeq; lia].
    + intros H. inversion H; subst. f_equal. now apply IHeq.
  - split; [lia |]. split; [lia |].
    intros H. inversion H as [|? ? [? ?]]; discriminate.
Qed.

Lemma non_null_delete {A} (xs : list (option A)) i :
  xs !! i = Some None -> non_null (delete i xs) = non_null xs.
Proof.
  unfold non_null. revert i. induction xs as [|x xs IH]; intros [|i] H;
    try discriminate.
  - now inversion H.
  - cbn in H. cbn [delete list_delete]. destruct x; cbn; now rewrite IH.
Qed.

Lemma elem_of_non_null {A} (xs : list (option A)) r :
  r ∈ non_null xs <-> exists j, xs !! j = Some (Some r).
Proof.
  unfold non_null. rewrite list_elem_of_omap. split.
  - intros (o & Ho & E). cbn in E. subst o.
    now apply list_elem_of_lookup in Ho.
  - intros (j & Hj). exists (Some r). split; [|reflexivity].
    apply list_elem_of_lookup. eauto.
Qed.

(** ** The converter on byte sequences *)

Section Properties.

Variable atob : string -> Outcome string.
Variable cbor_decodeFirst : list byte -> Outcome Value.
Variable array_like : list (string * Value) -> Outcome (list Value).

Lemma hex_of_bytes bs : hex_of array_like (VBytes bs) = Return (hex_text bs).
Proof.
  unfold hex_of, Array_from_items, hex_text. cbn [obind].
  assert (E : omapM (fun byte =>
                obind (call_toString 16 byte)
                  (fun s => Return (padStart 2 "0" s)))
                (map number_of_byte bs)
              = Return (map hex_pair bs)).
  { induction bs as [|b bs IH]; [reflexivity |].
    cbn [map omapM]. rewrite IH. unfold number_of_byte at 1.
    cbn [call_toString]. now rewrite Integer_toString_N. }
  now rewrite E.
Qed.

Lemma convert_bytes bs :
  convert array_like (VBytes bs) = eret (N_digits 2 (be_value bs)).
Proof.
  unfold convert. rewrite hex_of_bytes, ebind_lift_return.
  rewrite bigint_of_hex_text, ebind_lift_return.
  rewrite Integer_toString_N by reflexivity. rewrite ebind_lift_return.
  pose proof (numeral_nonempty 2 _ _ (N_digits_numeral 2 ltac:(lia) (be_value bs))).
  destruct (N_digits 2 (be_value bs)); [congruence | reflexivity].
Qed.

Lemma covertToBinary_bytes bs :
  covertToBinary array_like (VBytes bs) = eret (N_digits 2 (be_value bs)).
Proof.
  unfold covertToBinary, absent_or_empty. cbn [truthy negb Get].
  rewrite ebind_lift_return, ebind_eret.
  destruct bs as [|b bs]; [reflexivity |].
  change (strict_eq_zero _) with false. cbv iota.
  now rewrite convert_bytes.
Qed.

(** ** One element of the [data] array *)

Local Abbreviation process := (processItem array_like).
Local Abbreviation decode :=
  (decodePayload atob cbor_decodeFirst array_like).

Lemma Get_bytes_truthy item k bs :
  Get item k = Return (VBytes bs) -> truthy item = true.
Proof.
  destruct item; cbn [Get]; try discriminate; try reflexivity;
    destruct (String.eqb k "length"); discriminate.
Qed.

Lemma valid_field_bytes item k bs :
  Get item k = Return (VBytes bs) -> valid_field item k = eret true.
Proof.
  intros G. unfold valid_field.
  rewrite (Get_bytes_truthy _ _ _ G), G. now rewrite ebind_lift_return.
Qed.

Lemma valid_field_other item k :
  (forall bs, Get item k <> Return (VBytes bs)) ->
  valid_field item k = eret false.
Proof.
  intros G. unfold valid_field. destruct (truthy item) eqn:T; [|reflexivity].
  destruct (Get item k) as [v|e] eqn:E.
  - rewrite ebind_lift_return.
    destruct v; try reflexivity. now contradiction (G bs).
  - destruct item; discriminate.
Qed.

Lemma valid_field_total item k : exists b, valid_field item k = eret b.
Proof.
  destruct (Get item k) as [v|e] eqn:E.
  - destruct v;
      try (exists false; apply valid_field_other; intros ?; rewrite E;
           discriminate).
    exists true. now apply valid_field_bytes with bs.
  - exists false. apply valid_field_other. intros ?. now rewrite E.
Qed.

Lemma processItem_invalid item index :
  (forall bs, Get item "bucket" <> Return (VBytes bs)) \/
  (forall bs, Get item "value" <> Return (VBytes bs)) ->
  process item index = ([skip_warning index item], Return None).
Proof.
  intros H. unfold processItem.
  destruct (valid_field_total item "bucket") as [b Eb].
  destruct (valid_field_total item "value") as [v Ev].
  rewrite Eb, ebind_eret, Ev, ebind_eret.
  assert (C : negb b || negb v = true).
  { destruct H as [H|H]; apply valid_field_other in H.
    - rewrite H in Eb. now inversion Eb.
    - rewrite H in Ev. inversion Ev. now destruct b. }
  rewrite C. reflexivity.
Qed.

Lemma processItem_zero item index b v :
  Get item "bucket" = Return (VBytes b) ->
  Get item "value" = Return (VBytes v) ->
  be_value v = 0 ->
  process item index = ([zero_notice index], Return None).
Proof.
  intros Gb Gv Z. unfold processItem.
  rewrite (valid_field_bytes _ _ _ Gb), ebind_eret.
  rewrite (valid_field_bytes _ _ _ Gv), ebind_eret. cbn [negb orb].
  rewrite Gv, ebind_lift_return, hex_of_bytes, ebind_lift_return.
  rewrite bigint_of_hex_text, ebind_lift_return, Z. reflexivity.
Qed.

Lemma processItem_keep item index b v :
  Get item "bucket" = Return (VBytes b) ->
  Get item "value" = Return (VBytes v) ->
  be_value v <> 0 ->
  process item index =
  eret (Some {| bucketInBinary := N_digits 2 (be_value b);
                valueInBinary := N_digits 2 (be_value v);
                bucketInDecimal := N_digits 10 (be_value b);
                valueInDecimal := N_digits 10 (be_value v) |}).
Proof.
  intros Gb Gv NZ. unfold processItem.
  rewrite (valid_field_bytes _ _ _ Gb), ebind_eret.
  rewrite (valid_field_bytes _ _ _ Gv), ebind_eret. cbn [negb orb].
  rewrite Gv, ebind_lift_return, hex_of_bytes, ebind_lift_return.
  rewrite bigint_of_hex_text, ebind_lift_return.
  destruct (Z.eqb_spec (Z.of_N (be_value v)) 0) as [E|_]; [lia|].
  rewrite Gb, ebind_lift_return, covertToBinary_bytes, ebind_eret.
  rewrite !Integer_toString_N by reflexivity. rewrite ebind_lift_return.
  rewrite hex_of_bytes, ebind_lift_return.
  rewrite bigint_of_hex_text, ebind_lift_return.
  rewrite !Integer_toString_N by reflexivity.
  rewrite !ebind_lift_return.
  pose proof (numeral_nonempty 2 _ _
                (N_digits_numeral 2 ltac:(lia) (be_value v))) as NE.
  destruct (N_digits 2 (be_value v)); [congruence | reflexivity].
Qed.

(** The three ways an element can go. *)
Lemma processItem_cases item :
  ((forall bs, Get item "bucket" <> Return (VBytes bs)) \/
   (forall bs, Get item "value" <> Return (VBytes bs))) \/
  exists b v,
    Get item "bucket" = Return (VBytes b) /\
    Get item "value" = Return (VBytes v).
Proof.
  destruct (Get item "bucket") as [[]|];
    try (left; left; intros ?; discriminate).
  destruct (Get item "value") as [[]|];
    try (left; right; intros ?; discriminate).
  right. eauto.
Qed.

Lemma processItem_total item index :
  exists l r, process item index = (l, Return r).
Proof.
  destruct (processItem_cases item) as [H | (b & v & Gb & Gv)].
  - rewrite (processItem_invalid _ _ H). eauto.
  - destruct (N.eq_dec (be_value v) 0) as [Z|NZ].
    + rewrite (processItem_zero _ _ _ _ Gb Gv Z). eauto.
    + rewrite (processItem_keep _ _ _ _ Gb Gv NZ). unfold eret. eauto.
Qed.

(** ** The whole decode *)

Lemma Get_array_truthy v k xs :
  Get v k = Return (VArray xs) -> truthy v = true.
Proof.
  destruct v; cbn [Get]; try discriminate; try reflexivity;
    destruct (String.eqb k "length"); discriminate.
Qed.

Lemma mismatch_array decoded items :
  Get decoded "data" = Return (VArray items) ->
  mismatch decoded = eret false.
Proof.
  intros G. unfold mismatch.
  rewrite (Get_array_truthy _ _ _ G), G. now rewrite ebind_lift_return.
Qed.

Lemma mismatch_other decoded :
  (forall items, Get decoded "data" <> Return (VArray items)) ->
  mismatch decoded = eret true.
Proof.
  intros G. unfold mismatch. destruct (truthy decoded) eqn:T; [|reflexivity].
  destruct (Get decoded "data") as [v|e] eqn:E.
  - rewrite ebind_lift_return.
    destruct v; try reflexivity. now contradiction (G xs).
  - destruct decoded; discriminate.
Qed.

Lemma decode_items payload binary decoded items :
  atob payload = Return binary ->
  cbor_decodeFirst (char_codes binary) = Return decoded ->
  Get decoded "data" = Return (VArray items) ->
  exists log all,
    map_indexed process 0 items = (log, Return all) /\
    decode payload = (log, Return (non_null all)).
Proof.
  intros Ha Hc G.
  destruct (map_indexed_total process processItem_total items 0)
    as (log & all & E).
  exists log, all. split; [exact E |].
  unfold decodePayload.
  rewrite Ha, ebind_lift_return, Hc, ebind_lift_return.
  rewrite (mismatch_array _ _ G), ebind_eret, G, ebind_lift_return, E.
  cbn. now rewrite app_nil_r.
Qed.

Lemma decode_inv payload log out :
  decode payload = (log, Return out) ->
  out = [] \/
  exists items all,
    map_indexed process 0 items = (log, Return all) /\ out = non_null all.
Proof.
  intros D. destruct (atob payload) as [binary|e] eqn:Ha.
  2:{ unfold decodePayload in D. rewrite Ha in D. discriminate. }
  destruct (cbor_decodeFirst (char_codes binary)) as [decoded|e] eqn:Hc.
  2:{ unfold decodePayload in D.
      rewrite Ha, ebind_lift_return, Hc in D. discriminate. }
  assert (C : (exists items, Get decoded "data" = Return (VArray items)) \/
              (forall items, Get decoded "data" <> Return (VArray items))).
  { destruct (Get decoded "data") as [[]|]; eauto; right; discriminate. }
  destruct C as [[items G] | G].
  - destruct (decode_items _ _ _ _ Ha Hc G) as (log' & all & E & D').
    rewrite D' in D. inversion D; subst. right. eauto.
  - unfold decodePayload in D.
    rewrite Ha, ebind_lift_return, Hc, ebind_lift_return in D.
    rewrite (mismatch_other _ G), ebind_eret in D.
    inversion D. now left.
Qed.

Lemma process_record item index l r :
  process item index = (l, Return (Some r)) ->
  exists b v,
    be_value v <> 0 /\
    r = {| bucketInBinary := N_digits 2 (be_value b);
           valueInBinary := N_digits 2 (be_value v);
           bucketInDecimal := N_digits 10 (be_value b);
           valueInDecimal := N_digits 10 (be_value v) |}.
Proof.
  intros E. destruct (processItem_cases item) as [H | (b & v & Gb & Gv)].
  - rewrite (processItem_invalid _ _ H) in E. discriminate.
  - destruct (N.eq_dec (be_value v) 0) as [Z|NZ].
    + rewrite (processItem_zero _ _ _ _ Gb Gv Z) in E. discriminate.
    + rewrite (processItem_keep _ _ _ _ Gb Gv NZ) in E.
      inversion E. eauto.
Qed.

Lemma decode_record payload log out r :
  decode payload = (log, Return out) -> r ∈ out ->
  exists b v,
    be_value v <> 0 /\
    r = {| bucketInBinary := N_digits 2 (be_value b);
           valueInBinary := N_digits 2 (be_value v);
           bucketInDecimal := N_digits 10 (be_value b);
           valueInDecimal := N_digits 10 (be_value v) |}.
Proof.
  intros D Hr. destruct (decode_inv _ _ _ D) as [-> | (items & all & E & ->)].
  - now apply elem_of_nil in Hr.
  - apply elem_of_non_null in Hr. destruct Hr as [j Hj].
    destruct (map_indexed_inv _ _ _ _ _ E) as [Hlen Hlook].
    assert (Hi : is_Some (items !! j)).
    { apply lookup_lt_is_Some. rewrite <- Hlen.
      apply lookup_lt_is_Some. eauto. }
    destruct Hi as [item Hi].
    destruct (Hlook j item Hi) as (l & y & Ey & Hy & _).
    rewrite Hj in Hy. inversion Hy; subst y.
    eapply process_record. exact Ey.
Qed.

End Properties.

(** ** The shape of numerals *)

Lemma is_bit_digit d : d < 2 -> is_bit (digit_char d) = true.
Proof.
  intros Hd. assert (C : d = 0 \/ d = 1) by lia. now destruct C as [-> | ->].
Qed.

Lemma is_decimal_digit_char d : d < 10 -> is_decimal_digit (digit_char d) = true.
Proof.
  intros Hd. unfold is_decimal_digit, digit_char.
  destruct (N.ltb_spec d 10); [|lia].
  rewrite N_ascii_embedding by lia. cases_N.
Qed.

Lemma nonempty_eqb s : s <> "" -> negb (String.eqb s "") = true.
Proof. destruct s; [congruence | reflexivity]. Qed.

Lemma binary_N_digits n : binary_string (N_digits 2 n) = true.
Proof.
  pose proof (N_digits_numeral 2 ltac:(lia) n) as H. unfold binary_string.
  rewrite (nonempty_eqb _ (numeral_nonempty _ _ _ H)).
  now rewrite (numeral_chars 2 is_bit _ _ is_bit_digit H).
Qed.

Lemma decimal_N_digits n : decimal_string (N_digits 10 n) = true.
Proof.
  pose proof (N_digits_numeral 10 ltac:(lia) n) as H. unfold decimal_string.
  rewrite (nonempty_eqb _ (numeral_nonempty _ _ _ H)).
  now rewrite (numeral_chars 10 is_decimal_digit _ _ is_decimal_digit_char H).
Qed.

Lemma parse_N_digits r n :
  2 <= r <= 36 -> parse_nat r (N_digits r n) = Some n.
Proof.
  intros Hr. pose proof (N_digits_numeral r Hr n) as H. unfold parse_nat.
  pose proof (numeral_nonempty _ _ _ H) as NE.
  rewrite <- (numeral_parse r Hr _ _ H).
  destruct (N_digits r n); [congruence | reflexivity].
Qed.

Lemma canonical_N_digits r n :
  2 <= r <= 36 -> no_leading_zeros (N_digits r n) = true.
Proof.
  intros Hr. eapply numeral_no_leading_zeros; [exact Hr |].
  now apply N_digits_numeral.
Qed.

(** ** Malformed base64 *)



(** ** The decoding contract *)

Section Contract.

Variable atob : string -> Outcome string.
Variable cbor_decodeFirst : list byte -> Outcome Value.
Variable array_like : list (string * Value) -> Outcome (list Value).

Local Abbreviation process := (processItem array_like).
Local Abbreviation decode :=
  (decodePayload atob cbor_decodeFirst array_like).

(** C1. An element of the [data] array whose [value] bytes denote the
    big-endian integer 0 is left out of the sequence [decodePayload]
    returns, whatever its [bucket] is: the callback's result for it is
    [null], and the returned records are the non-null results of the other
    elements. *)
Theorem zero_value_is_omitted payload binary decoded items i item vs :
  atob payload = Return binary ->
  cbor_decodeFirst (char_codes binary) = Return decoded ->
  Get decoded "data" = Return (VArray items) ->
  items !! i = Some item ->
  Get item "value" = Return (VBytes vs) ->
  be_value vs = 0 ->
  exists log all,
    map_indexed process 0 items = (log, Return all) /\
    all !! i = Some None /\
    decode payload = (log, Return (non_null (delete i all))).
Proof.
  intros Ha Hc G Hi Gv Z.
  destruct (decode_items atob cbor_decodeFirst array_like _ _ _ _ Ha Hc G)
    as (log & all & E & D).
  destruct (map_indexed_inv _ _ _ _ _ E) as [_ Hlook].
  destruct (Hlook i item Hi) as (l & y & Ey & Hy & _).
  assert (y = None) as ->.
  { destruct (processItem_cases item) as [H | (b & v & Gb & Gv')].
    - rewrite (processItem_invalid _ _ _ H) in Ey. now inversion Ey.
    - rewrite Gv in Gv'. inversion Gv'; subst v.
      rewrite (processItem_zero _ _ _ _ _ Gb Gv Z) in Ey. now inversion Ey. }
  exists log, all. rewrite (non_null_delete _ _ Hy). auto.
Qed.

(** C2. For a non-empty byte sequence [B], the text [covertToBinary]
    returns, read in base 2, is the unsigned big-endian integer of [B],
    which is the integer its two-digits-per-byte hexadecimal text denotes. *)
Theorem binary_text_denotes_the_bytes B :
  B <> [] ->
  exists s hex,
    covertToBinary array_like (VBytes B) = eret s /\
    parse_nat 2 s = Some (be_value B) /\
    hex_of array_like (VBytes B) = Return hex /\
    String.length hex = (2 * length B)%nat /\
    parse_nat 16 hex = Some (be_value B).
Proof.
  intros NE. exists (N_digits 2 (be_value B)), (hex_text B).
  split; [apply covertToBinary_bytes |].
  split; [apply parse_N_digits; lia |].
  split; [apply hex_of_bytes |]. split.
  - clear NE. induction B as [|b B IH]; [reflexivity |].
    rewrite hex_text_cons, hex_pair_digits, !app_cons, app_empty_l.
    cbn [String.length length]. rewrite IH. lia.
  - unfold parse_nat. pose proof (parse_hex_text B 0) as P.
    destruct (hex_text B) eqn:E; [|exact P].
    apply hex_text_empty in E. contradiction.
Qed.

(** C3. [covertToBinary] returns exactly ["0"] for a byte sequence that is
    absent ([undefined] or [null]), empty, or made of zero bytes only. *)
Theorem zero_bytes_give_zero bytes :
  bytes = VUndefined \/ bytes = VNull \/
  (exists bs, bytes = VBytes bs /\ Forall (fun b => Byte.to_N b = 0) bs) ->
  covertToBinary array_like bytes = eret "0".
Proof.
  intros [-> | [-> | (bs & -> & Hz)]]; [reflexivity | reflexivity |].
  rewrite covertToBinary_bytes, (be_value_zeros _ Hz). reflexivity.
Qed.

(** C4. The sequence [decodePayload] returns is the per-element results
    with the [null]s filtered out, in their order: it is a subsequence of
    them, no longer than the input array, and as long as the input array
    exactly when no element was skipped. *)
Theorem output_is_an_ordered_filter payload binary decoded items :
  atob payload = Return binary ->
  cbor_decodeFirst (char_codes binary) = Return decoded ->
  Get decoded "data" = Return (VArray items) ->
  exists log all out,
    map_indexed process 0 items = (log, Return all) /\
    decode payload = (log, Return out) /\
    length all = length items /\
    Some <$> out = filter is_Some all /\
    (Some <$> out) `sublist_of` all /\
    (length out <= length items)%nat /\
    (length out = length items <-> Forall is_Some all).
Proof.
  intros Ha Hc G.
  destruct (decode_items atob cbor_decodeFirst array_like _ _ _ _ Ha Hc G)
    as (log & all & E & D).
  destruct (map_indexed_inv _ _ _ _ _ E) as [Hlen _].
  destruct (non_null_length all) as [Hle Heq].
  exists log, all, (non_null all). rewrite <- Hlen.
  repeat split; try assumption; try apply Heq.
  - apply non_null_filter.
  - rewrite non_null_filter. apply sublist_filter.
Qed.

(** C5. When the decoded value has no [data] field holding an array,
    [decodePayload] does not raise: it logs the structure mismatch and
    returns the empty sequence. *)
Theorem structure_mismatch_is_empty payload binary decoded :
  atob payload = Return binary ->
  cbor_decodeFirst (char_codes binary) = Return decoded ->
  (forall items, Get decoded "data" <> Return (VArray items)) ->
  decode payload = ([mismatch_error decoded], Return []).
Proof.
  intros Ha Hc G. unfold decodePayload.
  rewrite Ha, ebind_lift_return, Hc, ebind_lift_return.
  now rewrite (mismatch_other _ G), ebind_eret.
Qed.


(** C7. An element of the [data] array whose [bucket] or [value] is missing
    or is no byte sequence is skipped alone: the decode still returns, the
    warning naming the element's index is logged, the element's result is
    [null], and every element of the array has been processed at its index,
    its result kept in place and its log lines written. The other elements
    are decoded as if it were not there: each one with byte sequences for
    [bucket] and [value], the value not zero, has its record in the
    returned sequence, the four texts denoting the two integers in base 2
    and base 10. *)
Theorem invalid_item_is_skipped_alone payload binary decoded items i item :
  atob payload = Return binary ->
  cbor_decodeFirst (char_codes binary) = Return decoded ->
  Get decoded "data" = Return (VArray items) ->
  items !! i = Some item ->
  (forall bs, Get item "bucket" <> Return (VBytes bs)) \/
  (forall bs, Get item "value" <> Return (VBytes bs)) ->
  exists log all,
    decode payload = (log, Return (non_null all)) /\
    length all = length items /\
    all !! i = Some None /\
    Console LevelWarn
      [LText ("Skipping invalid item at index " +:+
              N_digits 10 (N.of_nat i) +:+ ".");
       LValue item] ∈ log /\
    (forall j other, items !! j = Some other ->
       exists l r, process other j = (l, Return r) /\
                   all !! j = Some r /\ l `sublist_of` log) /\
    (forall j other b v,
       items !! j = Some other ->
       Get other "bucket" = Return (VBytes b) ->
       Get other "value" = Return (VBytes v) ->
       be_value v <> 0 ->
       exists r,
         all !! j = Some (Some r) /\ r ∈ non_null all /\
         parse_nat 2 (bucketInBinary r) = Some (be_value b) /\
         parse_nat 2 (valueInBinary r) = Some (be_value v) /\
         parse_nat 10 (bucketInDecimal r) = Some (be_value b) /\
         parse_nat 10 (valueInDecimal r) = Some (be_value v)).
Proof.
  intros Ha Hc G Hi Hbad.
  destruct (decode_items atob cbor_decodeFirst array_like _ _ _ _ Ha Hc G)
    as (log & all & E & D).
  destruct (map_indexed_inv _ _ _ _ _ E) as [Hlen Hlook].
  exists log, all. split; [exact D |]. split; [exact Hlen |].
  destruct (Hlook i item Hi) as (l & y & Ey & Hy & Hsub).
  rewrite (processItem_invalid _ _ _ Hbad) in Ey. inversion Ey; subst l y.
  split; [exact Hy |]. split; [|split; [exact Hlook |]].
  - eapply elem_of_sublist; [|exact Hsub]. apply list_elem_of_singleton.
    reflexivity.
  - intros j other b v Hj Gb Gv NZ.
    destruct (Hlook j other Hj) as (l' & y' & Ey' & Hy' & _).
    rewrite (processItem_keep _ _ _ _ _ Gb Gv NZ) in Ey'.
    inversion Ey'; subst l' y'. eexists. split; [exact Hy' |].
    split; [apply elem_of_non_null; eauto |].
    cbn [bucketInBinary valueInBinary bucketInDecimal valueInDecimal].
    rewrite !parse_N_digits by lia. auto.
Qed.

(** C8. When the conversion inside [covertToBinary] fails, the function does
    not raise: it logs the failure and returns the text ["Error"], which no
    string over ['0'] and ['1'] equals. With that, [covertToBinary] returns
    a text on every input. *)
Theorem conversion_failure_is_a_sentinel bytes l e :
  absent_or_empty bytes = eret false ->
  convert array_like bytes = (l, Throw e) ->
  covertToBinary array_like bytes =
    (l ++ [Console LevelError
             [LText "Error during binary conversion:"; LExn e;
              LText "Input bytes:"; LValue bytes]],
     Return "Error") /\
  (forall s, all_chars is_bit s = true -> s <> "Error") /\
  (forall input, exists log s,
      covertToBinary array_like input = (log, Return s)).
Proof.
  intros Hne Hc. split; [|split].
  - unfold covertToBinary. now rewrite Hne, ebind_eret, Hc.
  - intros s Hs ->. discriminate.
  - intros input. unfold covertToBinary.
    assert (A : exists b, absent_or_empty input = eret b).
    { unfold absent_or_empty. destruct (truthy input) eqn:T; [|eauto].
      destruct (Get input "length") as [len|x] eqn:G.
      - rewrite ebind_lift_return. eauto.
      - destruct input; discriminate. }
    destruct A as [[] ->]; rewrite ebind_eret; [unfold eret; eauto |].
    destruct (convert array_like input) as [log [s|x]]; cbn; eauto.
Qed.

(** C9. Every record [decodePayload] returns has its four text fields: the
    binary ones are strings over ['0'] and ['1'], the decimal ones strings
    over ['0'] to ['9'], and none has a leading zero before another digit. *)
Theorem records_are_canonical_numerals payload log out r :
  decode payload = (log, Return out) -> r ∈ out ->
  (binary_string (bucketInBinary r) = true /\
   binary_string (valueInBinary r) = true /\
   decimal_string (bucketInDecimal r) = true /\
   decimal_string (valueInDecimal r) = true) /\
  (no_leading_zeros (bucketInBinary r) = true /\
   no_leading_zeros (valueInBinary r) = true /\
   no_leading_zeros (bucketInDecimal r) = true /\
   no_leading_zeros (valueInDecimal r) = true).
Proof.
  intros D Hr.
  destruct (decode_record atob cbor_decodeFirst array_like _ _ _ _ D Hr)
    as (b & v & _ & ->).
  cbn [bucketInBinary valueInBinary bucketInDecimal valueInDecimal].
  rewrite !binary_N_digits, !decimal_N_digits.
  rewrite !canonical_N_digits by lia. auto.
Qed.

(** C10. In every record [decodePayload] returns, the binary and the
    decimal text of the bucket denote the same integer, and so do those of
    the value, whose integer is not zero. *)
Theorem records_are_consistent payload log out r :
  decode payload = (log, Return out) -> r ∈ out ->
  exists bucket value,
    parse_nat 2 (bucketInBinary r) = Some bucket /\
    parse_nat 10 (bucketInDecimal r) = Some bucket /\
    parse_nat 2 (valueInBinary r) = Some value /\
    parse_nat 10 (valueInDecimal r) = Some value /\
    value <> 0.
Proof.
  intros D Hr.
  destruct (decode_record atob cbor_decodeFirst array_like _ _ _ _ D Hr)
    as (b & v & NZ & ->).
  cbn [bucketInBinary valueInBinary bucketInDecimal valueInDecimal].
  exists (be_value b), (be_value v).
  rewrite !parse_N_digits by lia. auto.
Qed.

End Contract.

(** ** The contract on payloads *)

Example decode_one :
  Platform.decode Samples.one = eret [Samples.record "1" "10" "1" "2"].
Proof. vm_compute. reflexivity. Qed.

Example decode_zero :
  Platform.decode Samples.zero = ([zero_notice 0], Return []).
Proof. vm_compute. reflexivity. Qed.

Example decode_three :
  Platform.decode Samples.three =
  ([zero_notice 1],
   Return [Samples.record "11111111" "1" "255" "1";
           Samples.record "10000" "10000" "16" "16"]).
Proof. vm_compute. reflexivity. Qed.

(** The second element of [Samples.three] has the value [h'00']. *)
Lemma zero_value_is_omitted_witness :
  exists log all,
    map_indexed (processItem Platform.array_like) 0
      Samples.three_items
    = (log, Return all) /\
    all !! 1%nat = Some None /\
    Platform.decode Samples.three = (log, Return (non_null (delete 1%nat all))).
Proof.
  eapply (zero_value_is_omitted Platform.atob Platform.decodeFirst
            Platform.array_like Samples.three _
            (VObject [("data", VArray Samples.three_items)])
            Samples.three_items 1%nat _ ["000"%byte]).
  - vm_compute. reflexivity.
  - vm_compute. reflexivity.
  - reflexivity.
  - reflexivity.
  - reflexivity.
  - reflexivity.
Defined.

Lemma binary_text_denotes_the_bytes_witness :
  exists s hex,
    covertToBinary Platform.array_like (VBytes ["001"%byte; "002"%byte])
      = eret s /\
    parse_nat 2 s = Some 258 /\
    hex_of Platform.array_like (VBytes ["001"%byte; "002"%byte])
      = Return hex /\
    String.length hex = 4%nat /\
    parse_nat 16 hex = Some 258.
Proof.
  apply (binary_text_denotes_the_bytes Platform.array_like
           ["001"%byte; "002"%byte]).
  discriminate.
Defined.

Lemma zero_bytes_give_zero_witness :
  covertToBinary Platform.array_like (VBytes ["000"%byte; "000"%byte])
  = eret "0".
Proof.
  apply (zero_bytes_give_zero Platform.array_like).
  right; right. exists ["000"%byte; "000"%byte].
  split; [reflexivity | repeat constructor].
Defined.

Lemma output_is_an_ordered_filter_witness :
  exists log all out,
    map_indexed (processItem Platform.array_like) 0
      Samples.three_items
    = (log, Return all) /\
    Platform.decode Samples.three = (log, Return out) /\
    length all = 3%nat /\
    Some <$> out = filter is_Some all /\
    (Some <$> out) `sublist_of` all /\
    (length out <= 3)%nat /\
    (length out = 3%nat <-> Forall is_Some all).
Proof.
  eapply (output_is_an_ordered_filter Platform.atob Platform.decodeFirst
            Platform.array_like Samples.three _
            (VObject [("data", VArray Samples.three_items)])
            Samples.three_items).
  - vm_compute. reflexivity.
  - vm_compute. reflexivity.
  - reflexivity.
Defined.

Lemma structure_mismatch_is_empty_witness :
  Platform.decode Samples.no_array
  = ([mismatch_error (VObject [("data", VNumber 5)])], Return []).
Proof.
  eapply (structure_mismatch_is_empty Platform.atob Platform.decodeFirst
            Platform.array_like Samples.no_array).
  - vm_compute. reflexivity.
  - vm_compute. reflexivity.
  - intros items. vm_compute. discriminate.
Defined.


(** A payload of one blank is base64 of no bytes, and in no bytes there is
    no CBOR item; yet the decode of it does not raise: the decoder answers
    with its marker, and [decodePayload] returns the empty list. *)
Example decode_blank :
  Platform.atob " " = Return "" /\
  Platform.decodeFirst (char_codes "") = Return Platform.not_found /\
  Platform.decode " " = ([mismatch_error Platform.not_found], Return []).
Proof. repeat split; vm_compute; reflexivity. Qed.


(** The second element of [Samples.mistyped] has the number 7 as bucket;
    the records of the two around it are returned. *)
Example decode_mistyped :
  Platform.decode Samples.mistyped =
  ([skip_warning 1 Samples.mistyped_item],
   Return [Samples.record "101" "11" "5" "3";
           Samples.record "10" "100000000" "2" "256"]).
Proof. vm_compute. reflexivity. Qed.

Lemma invalid_item_is_skipped_alone_witness :
  exists log all,
    Platform.decode Samples.mistyped = (log, Return (non_null all)) /\
    length all = 3%nat /\
    all !! 1%nat = Some None /\
    Console LevelWarn
      [LText "Skipping invalid item at index 1.";
       LValue Samples.mistyped_item] ∈ log /\
    (forall j other, Samples.mistyped_items !! j = Some other ->
       exists l r, processItem Platform.array_like other j = (l, Return r) /\
                   all !! j = Some r /\ l `sublist_of` log) /\
    (forall j other b v,
       Samples.mistyped_items !! j = Some other ->
       Get other "bucket" = Return (VBytes b) ->
       Get other "value" = Return (VBytes v) ->
       be_value v <> 0 ->
       exists r,
         all !! j = Some (Some r) /\ r ∈ non_null all /\
         parse_nat 2 (bucketInBinary r) = Some (be_value b) /\
         parse_nat 2 (valueInBinary r) = Some (be_value v) /\
         parse_nat 10 (bucketInDecimal r) = Some (be_value b) /\
         parse_nat 10 (valueInDecimal r) = Some (be_value v)).
Proof.
  eapply (invalid_item_is_skipped_alone Platform.atob Platform.decodeFirst
            Platform.array_like Samples.mistyped _
            (VObject [("data", VArray Samples.mistyped_items)])
            Samples.mistyped_items 1%nat Samples.mistyped_item).
  - vm_compute. reflexivity.
  - vm_compute. reflexivity.
  - reflexivity.
  - reflexivity.
  - left. intros bs. vm_compute. discriminate.
Defined.

Lemma conversion_failure_is_a_sentinel_witness :
  covertToBinary Platform.array_like (VArray [VNull]) =
    ([Console LevelError
        [LText "Error during binary conversion:"; LExn TypeError;
         LText "Input bytes:"; LValue (VArray [VNull])]],
     Return "Error") /\
  (forall s, all_chars is_bit s = true -> s <> "Error") /\
  (forall input, exists log s,
      covertToBinary Platform.array_like input = (log, Return s)).
Proof.
  apply (conversion_failure_is_a_sentinel Platform.array_like
           (VArray [VNull]) [] TypeError); reflexivity.
Defined.

Lemma records_are_canonical_numerals_witness :
  let r := Samples.record "10000" "10000" "16" "16" in
  (binary_string (bucketInBinary r) = true /\
   binary_string (valueInBinary r) = true /\
   decimal_string (bucketInDecimal r) = true /\
   decimal_string (valueInDecimal r) = true) /\
  (no_leading_zeros (bucketInBinary r) = true /\
   no_leading_zeros (valueInBinary r) = true /\
   no_leading_zeros (bucketInDecimal r) = true /\
   no_leading_zeros (valueInDecimal r) = true).
Proof.
  eapply (records_are_canonical_numerals Platform.atob Platform.decodeFirst
            Platform.array_like Samples.three).
  - vm_compute. reflexivity.
  - apply list_elem_of_further, list_elem_of_here.
Defined.

Lemma records_are_consistent_witness :
  exists bucket value,
    parse_nat 2 "11111111" = Some bucket /\
    parse_nat 10 "255" = Some bucket /\
    parse_nat 2 "1" = Some value /\
    parse_nat 10 "1" = Some value /\
    value <> 0.
Proof.
  eapply (records_are_consistent Platform.atob Platform.decodeFirst
            Platform.array_like Samples.three _ _
            (Samples.record "11111111" "1" "255" "1")).
  - vm_compute. reflexivity.
  - apply list_elem_of_here.
Defined.

(** ** More on the converter *)

Lemma be_value_from_app a xs ys :
  be_value_from a (xs ++ ys) = be_value_from (be_value_from a xs) ys.
Proof. unfold be_value_from. apply fold_left_app. Qed.

Lemma be_value_from_bound bs : forall a,
  be_value_from a bs < (a + 1) * 256 ^ N.of_nat (length bs).
Proof.
  induction bs as [|b bs IH]; intros a.
  - cbn. lia.
  - change (be_value_from a (b :: bs))
      with (be_value_from (a * 256 + Byte.to_N b) bs).
    pose proof (Byte.to_N_bounded b) as Hb.
    eapply N.lt_le_trans; [apply IH |].
    cbn [length]. rewrite Nat2N.inj_succ, N.pow_succ_r'. nia.
Qed.

Lemma numeral_length r n s :
  2 <= r -> numeral r n s -> 0 < n ->
  r ^ (N.of_nat (String.length s) - 1) <= n.
Proof.
  intros Hr. induction 1 as [d Hd | n s d Hs IH Hn Hd]; intros Hpos.
  - change (N.of_nat (String.length (String (digit_char d) "")) - 1) with 0.
    rewrite N.pow_0_r. lia.
  - assert (L : String.length (s +:+ String (digit_char d) "")
                = S (String.length s)).
    { clear. induction s as [|c s IH]; [reflexivity |].
      rewrite app_cons. cbn [String.length]. now rewrite IH. }
    rewrite L. pose proof (numeral_nonempty _ _ _ Hs) as NE.
    assert (0 < String.length s)%nat by (destruct s; [congruence | cbn; lia]).
    replace (N.of_nat (S (String.length s)) - 1)
      with (N.succ (N.of_nat (String.length s) - 1)) by lia.
    rewrite N.pow_succ_r'. specialize (IH Hn). nia.
Qed.

Section Converter.

Variable array_like : list (string * Value) -> Outcome (list Value).

(** X1. Zero bytes in front of a byte sequence do not change the text
    [covertToBinary] returns for it. *)
Theorem leading_zero_bytes_are_dropped zeros bs :
  Forall (fun b => Byte.to_N b = 0) zeros ->
  covertToBinary array_like (VBytes (zeros ++ bs))
  = covertToBinary array_like (VBytes bs).
Proof.
  intros Hz. rewrite !covertToBinary_bytes. do 2 f_equal.
  unfold be_value. rewrite be_value_from_app.
  now rewrite (be_value_zeros _ Hz : be_value_from 0 zeros = 0).
Qed.

(** X2. [covertToBinary] gives two byte sequences the same text exactly when
    they denote the same big-endian integer. *)
Theorem same_text_same_value a b :
  covertToBinary array_like (VBytes a) = covertToBinary array_like (VBytes b)
  <-> be_value a = be_value b.
Proof.
  rewrite !covertToBinary_bytes. split.
  - intros E. inversion E as [E'].
    pose proof (parse_N_digits 2 (be_value a) ltac:(lia)) as Pa.
    rewrite E', parse_N_digits in Pa by lia. now inversion Pa.
  - now intros ->.
Qed.

(** X3. The text [covertToBinary] returns for [k] bytes has at least one
    character and, for [k] above zero, at most [8 * k]. *)
Theorem binary_text_length bs :
  exists s,
    covertToBinary array_like (VBytes bs) = eret s /\
    (1 <= String.length s)%nat /\
    (String.length s <= Nat.max 1 (8 * length bs))%nat.
Proof.
  exists (N_digits 2 (be_value bs)). split; [apply covertToBinary_bytes |].
  pose proof (N_digits_numeral 2 ltac:(lia) (be_value bs)) as H.
  pose proof (numeral_nonempty _ _ _ H) as NE.
  split; [destruct (N_digits 2 (be_value bs)); [congruence | cbn; lia] |].
  destruct (N.eq_dec (be_value bs) 0) as [Z|NZ].
  - destruct (numeral_head 2 ltac:(lia) _ _ H) as [H0 _].
    rewrite (H0 Z). cbn. lia.
  - pose proof (numeral_length 2 _ _ ltac:(lia) H ltac:(lia)) as Lo.
    pose proof (be_value_from_bound bs 0) as Hi. fold (be_value bs) in Hi.
    rewrite N.add_0_l, N.mul_1_l in Hi.
    change 256 with (2 ^ 8) in Hi. rewrite <- N.pow_mul_r in Hi.
    assert (Lt : N.of_nat (String.length (N_digits 2 (be_value bs))) - 1
                 < 8 * N.of_nat (length bs)).
    { apply (N.pow_lt_mono_r_iff 2); lia. }
    lia.
Qed.

(** X4. An ordinary array of numbers between 0 and 255 is converted like the
    byte sequence of the same bytes. *)
Theorem plain_array_of_bytes bs :
  covertToBinary array_like (VArray (map number_of_byte bs))
  = covertToBinary array_like (VBytes bs).
Proof.
  assert (C : convert array_like (VArray (map number_of_byte bs))
              = convert array_like (VBytes bs)) by reflexivity.
  unfold covertToBinary, absent_or_empty.
  cbn [truthy negb Get String.eqb Ascii.eqb Bool.eqb].
  unfold number_of_nat. rewrite length_map, C, convert_bytes. reflexivity.
Qed.

(** X5. A boolean, a number, [NaN] or a bigint in place of the bytes is
    answered with the text ["0"], and nothing is logged. *)
Theorem primitives_give_zero :
  (forall b, covertToBinary array_like (VBool b) = eret "0") /\
  (forall n, covertToBinary array_like (VNumber n) = eret "0") /\
  covertToBinary array_like VNaN = eret "0" /\
  (forall z, covertToBinary array_like (VBigInt z) = eret "0").
Proof.
  repeat split.
  - now intros [].
  - intros n. unfold covertToBinary, absent_or_empty. cbn [truthy].
    now destruct (n =? 0)%Z.
  - intros z. unfold covertToBinary, absent_or_empty. cbn [truthy].
    now destruct (z =? 0)%Z.
Qed.

End Converter.

Lemma leading_zero_bytes_are_dropped_witness :
  covertToBinary Platform.array_like
    (VBytes (["000"%byte; "000"%byte] ++ ["001"%byte; "002"%byte]))
  = covertToBinary Platform.array_like (VBytes ["001"%byte; "002"%byte]).
Proof.
  apply (leading_zero_bytes_are_dropped Platform.array_like
           ["000"%byte; "000"%byte] ["001"%byte; "002"%byte]).
  repeat constructor.
Defined.

(** ** More on the decoder *)

Lemma map_indexed_app {A B} (f : A -> nat -> Eff B) xs : forall k ys l1 a1 l2 a2,
  map_indexed f k xs = (l1, Return a1) ->
  map_indexed f (k + length xs)%nat ys = (l2, Return a2) ->
  map_indexed f k (xs ++ ys) = (l1 ++ l2, Return (a1 ++ a2)).
Proof.
  induction xs as [|x xs IH]; intros k ys l1 a1 l2 a2 E1 E2.
  - inversion E1. cbn [length] in E2. rewrite Nat.add_0_r in E2. exact E2.
  - cbn [map_indexed] in E1. destruct (f x k) as [l [y|e]] eqn:Ex;
      [|discriminate].
    destruct (map_indexed f (S k) xs) as [ls [ys'|e]] eqn:Es;
      cbn in E1; [|discriminate].
    inversion E1; subst l1 a1; clear E1.
    cbn [length] in E2.
    replace (k + S (length xs))%nat with (S k + length xs)%nat in E2 by lia.
    rewrite <- app_comm_cons. cbn [map_indexed].
    rewrite Ex, (IH _ _ _ _ _ _ Es E2). unfold ebind, eret.
    rewrite !app_nil_r, <- !app_assoc. reflexivity.
Qed.

Section Elements.

Variable atob : string -> Outcome string.
Variable cbor_decodeFirst : list byte -> Outcome Value.
Variable array_like : list (string * Value) -> Outcome (list Value).

Local Abbreviation process := (processItem array_like).
Local Abbreviation decode :=
  (decodePayload atob cbor_decodeFirst array_like).

(** An element is skipped with one line on the console, or kept without
    one; what is kept does not depend on the index. *)
Lemma process_outcome item index :
  process item index = ([skip_warning index item], Return None) \/
  process item index = ([zero_notice index], Return None) \/
  exists r, forall k, process item k = ([], Return (Some r)).
Proof.
  destruct (processItem_cases item) as [H | (b & v & Gb & Gv)].
  - left. now apply processItem_invalid.
  - destruct (N.eq_dec (be_value v) 0) as [Z|NZ].
    + right; left. now apply processItem_zero with b v.
    + right; right. eexists. intros k.
      apply (processItem_keep array_like _ k _ _ Gb Gv NZ).
Qed.

Lemma process_result_index item j k :
  snd (process item j) = snd (process item k).
Proof.
  destruct (processItem_cases item) as [H | (b & v & Gb & Gv)].
  - now rewrite !(processItem_invalid _ _ _ H).
  - destruct (N.eq_dec (be_value v) 0) as [Z|NZ].
    + now rewrite !(processItem_zero _ _ _ _ _ Gb Gv Z).
    + now rewrite !(processItem_keep _ _ _ _ _ Gb Gv NZ).
Qed.

Lemma results_index items : forall j k lj aj lk ak,
  map_indexed process j items = (lj, Return aj) ->
  map_indexed process k items = (lk, Return ak) ->
  aj = ak.
Proof.
  induction items as [|x xs IH]; intros j k lj aj lk ak Ej Ek.
  - inversion Ej. now inversion Ek.
  - cbn [map_indexed] in Ej, Ek.
    pose proof (process_result_index x j k) as R.
    destruct (process x j) as [l1 [y1|e]]; [|discriminate].
    destruct (process x k) as [l2 [y2|e]]; [|discriminate].
    cbn in R. inversion R; subst y2.
    destruct (map_indexed process (S j) xs) as [ls1 [a1|e]] eqn:E1;
      cbn in Ej; [|discriminate].
    destruct (map_indexed process (S k) xs) as [ls2 [a2|e]] eqn:E2;
      cbn in Ek; [|discriminate].
    inversion Ej. inversion Ek. f_equal. eapply IH; eassumption.
Qed.

Lemma results_account items : forall k log all,
  map_indexed process k items = (log, Return all) ->
  (length log + length (non_null all) = length items)%nat /\
  forall entry, entry ∈ log ->
    exists j item,
      items !! j = Some item /\
      (entry = skip_warning (k + j) item \/ entry = zero_notice (k + j)).
Proof.
  induction items as [|x xs IH]; intros k log all E.
  - inversion E. split; [reflexivity |]. intros entry H.
    now apply elem_of_nil in H.
  - cbn [map_indexed] in E.
    destruct (process x k) as [l [y|e]] eqn:Ex; [|discriminate].
    destruct (map_indexed process (S k) xs) as [ls [ys|e]] eqn:Es;
      cbn in E; [|discriminate].
    inversion E; subst log all; clear E.
    destruct (IH _ _ _ Es) as [Hn He]. rewrite app_nil_r.
    assert (Hrest : forall entry, entry ∈ ls ->
              exists j item, (x :: xs) !! j = Some item /\
                (entry = skip_warning (k + j) item \/
                 entry = zero_notice (k + j))).
    { intros entry H. destruct (He entry H) as (j & item & Hj & Hc).
      exists (S j), item. replace (k + S j)%nat with (S k + j)%nat by lia.
      auto. }
    destruct (process_outcome x k) as [H | [H | [r H]]];
      [| | specialize (H k)]; rewrite H in Ex; inversion Ex; subst l y.
    + split.
      * rewrite length_app. change (non_null (None :: ys)) with (non_null ys).
        cbn [length]. lia.
      * intros entry [->%list_elem_of_singleton | Hin]%elem_of_app;
          [|now apply Hrest].
        exists O, x. rewrite Nat.add_0_r. split; [reflexivity | now left].
    + split.
      * rewrite length_app. change (non_null (None :: ys)) with (non_null ys).
        cbn [length]. lia.
      * intros entry [->%list_elem_of_singleton | Hin]%elem_of_app;
          [|now apply Hrest].
        exists O, x. rewrite Nat.add_0_r. split; [reflexivity | now right].
    + split; [|exact Hrest].
      change (non_null (Some r :: ys)) with (r :: non_null ys).
      cbn [length app]. lia.
Qed.

(** X6. [decodePayload] raises only what [atob] or the CBOR decoder raised:
    when it ends in an exception, one of the two threw it, and nothing was
    logged. *)
Theorem decode_raises_only_envelope_errors payload log e :
  decode payload = (log, Throw e) ->
  log = [] /\
  (atob payload = Throw e \/
   exists binary, atob payload = Return binary /\
                  cbor_decodeFirst (char_codes binary) = Throw e).
Proof.
  intros D. destruct (atob payload) as [binary|x] eqn:Ha.
  2:{ unfold decodePayload in D. rewrite Ha in D. inversion D. auto. }
  destruct (cbor_decodeFirst (char_codes binary)) as [decoded|x] eqn:Hc.
  2:{ unfold decodePayload in D.
      rewrite Ha, ebind_lift_return, Hc in D. inversion D; subst x.
      split; [reflexivity |]. right. exists binary. now split. }
  assert (C : (exists items, Get decoded "data" = Return (VArray items)) \/
              (forall items, Get decoded "data" <> Return (VArray items))).
  { destruct (Get decoded "data") as [[]|]; eauto; right; discriminate. }
  destruct C as [[items G] | G].
  - destruct (decode_items atob cbor_decodeFirst array_like _ _ _ _ Ha Hc G)
      as (log' & all & _ & D').
    rewrite D' in D. discriminate.
  - unfold decodePayload in D.
    rewrite Ha, ebind_lift_return, Hc, ebind_lift_return in D.
    rewrite (mismatch_other _ G), ebind_eret in D. discriminate.
Qed.

(** X7. An element with byte sequences for [bucket] and [value], the value
    not zero, is always kept: its record is in the returned sequence, with
    the converter's texts of the two byte sequences and decimal texts that
    denote their integers. *)
Theorem valid_item_is_kept payload binary decoded items i item b v :
  atob payload = Return binary ->
  cbor_decodeFirst (char_codes binary) = Return decoded ->
  Get decoded "data" = Return (VArray items) ->
  items !! i = Some item ->
  Get item "bucket" = Return (VBytes b) ->
  Get item "value" = Return (VBytes v) ->
  be_value v <> 0 ->
  exists log out r,
    decode payload = (log, Return out) /\
    r ∈ out /\
    covertToBinary array_like (VBytes b) = eret (bucketInBinary r) /\
    covertToBinary array_like (VBytes v) = eret (valueInBinary r) /\
    parse_nat 10 (bucketInDecimal r) = Some (be_value b) /\
    parse_nat 10 (valueInDecimal r) = Some (be_value v).
Proof.
  intros Ha Hc G Hi Gb Gv NZ.
  destruct (decode_items atob cbor_decodeFirst array_like _ _ _ _ Ha Hc G)
    as (log & all & E & D).
  destruct (map_indexed_inv _ _ _ _ _ E) as [_ Hlook].
  destruct (Hlook i item Hi) as (l & y & Ey & Hy & _).
  rewrite (processItem_keep _ _ _ _ _ Gb Gv NZ) in Ey.
  inversion Ey; subst l y. eexists log, (non_null all), _.
  split; [exact D |]. split; [apply elem_of_non_null; eauto |].
  cbn [bucketInBinary valueInBinary bucketInDecimal valueInDecimal].
  rewrite !covertToBinary_bytes, !parse_N_digits by lia. auto.
Qed.

(** X8. Every element of the [data] array is answered once: by a record in
    the returned sequence, or by one line on the console. *)
Theorem every_element_is_accounted payload binary decoded items :
  atob payload = Return binary ->
  cbor_decodeFirst (char_codes binary) = Return decoded ->
  Get decoded "data" = Return (VArray items) ->
  exists log out,
    decode payload = (log, Return out) /\
    (length log + length out = length items)%nat.
Proof.
  intros Ha Hc G.
  destruct (decode_items atob cbor_decodeFirst array_like _ _ _ _ Ha Hc G)
    as (log & all & E & D).
  exists log, (non_null all). split; [exact D |].
  apply (results_account _ _ _ _ E).
Qed.

(** X9. Whatever the payload, a line [decodePayload] writes to the console
    is the structure mismatch, the warning of a skipped element or the note
    of a zero value. The lines of its own [catch] block and of the
    converter's are never written. *)
Theorem decode_log_lines payload log result entry :
  decode payload = (log, result) -> entry ∈ log ->
  (exists decoded, entry = mismatch_error decoded) \/
  (exists index item, entry = skip_warning index item) \/
  (exists index, entry = zero_notice index).
Proof.
  intros D Hin. destruct (atob payload) as [binary|x] eqn:Ha.
  2:{ unfold decodePayload in D. rewrite Ha in D. inversion D; subst.
      now apply elem_of_nil in Hin. }
  destruct (cbor_decodeFirst (char_codes binary)) as [decoded|x] eqn:Hc.
  2:{ unfold decodePayload in D.
      rewrite Ha, ebind_lift_return, Hc in D. inversion D; subst.
      now apply elem_of_nil in Hin. }
  assert (C : (exists items, Get decoded "data" = Return (VArray items)) \/
              (forall items, Get decoded "data" <> Return (VArray items))).
  { destruct (Get decoded "data") as [[]|]; eauto; right; discriminate. }
  destruct C as [[items G] | G].
  - destruct (decode_items atob cbor_decodeFirst array_like _ _ _ _ Ha Hc G)
      as (log' & all & E & D').
    rewrite D' in D. inversion D; subst log' result.
    destruct (results_account _ _ _ _ E) as [_ He].
    destruct (He entry Hin) as (j & item & _ & [-> | ->]); eauto.
  - unfold decodePayload in D.
    rewrite Ha, ebind_lift_return, Hc, ebind_lift_return in D.
    rewrite (mismatch_other _ G), ebind_eret in D.
    inversion D; subst log result.
    apply list_elem_of_singleton in Hin. eauto.
Qed.

(** X10. The records of an array are those of its front part followed by
    those of its rear part: an element's record depends neither on its
    place nor on its neighbours. *)
Theorem decode_of_concatenation
    payload binary decoded front_payload front_binary front_decoded
    rear_payload rear_binary rear_decoded front rear :
  atob payload = Return binary ->
  cbor_decodeFirst (char_codes binary) = Return decoded ->
  Get decoded "data" = Return (VArray (front ++ rear)) ->
  atob front_payload = Return front_binary ->
  cbor_decodeFirst (char_codes front_binary) = Return front_decoded ->
  Get front_decoded "data" = Return (VArray front) ->
  atob rear_payload = Return rear_binary ->
  cbor_decodeFirst (char_codes rear_binary) = Return rear_decoded ->
  Get rear_decoded "data" = Return (VArray rear) ->
  exists log front_log rear_log front_out rear_out,
    decode front_payload = (front_log, Return front_out) /\
    decode rear_payload = (rear_log, Return rear_out) /\
    decode payload = (log, Return (front_out ++ rear_out)).
Proof.
  intros Ha Hc G Ha1 Hc1 G1 Ha2 Hc2 G2.
  destruct (decode_items atob cbor_decodeFirst array_like _ _ _ _ Ha Hc G)
    as (log & all & E & D).
  destruct (decode_items atob cbor_decodeFirst array_like _ _ _ _ Ha1 Hc1 G1)
    as (log1 & all1 & E1 & D1).
  destruct (decode_items atob cbor_decodeFirst array_like _ _ _ _ Ha2 Hc2 G2)
    as (log2 & all2 & E2 & D2).
  destruct (map_indexed_total process (processItem_total array_like) rear
              (0 + length front)) as (log2' & all2' & E2').
  pose proof (results_index _ _ _ _ _ _ _ E2 E2'). subst all2'.
  pose proof (map_indexed_app _ _ _ _ _ _ _ _ E1 E2') as E'.
  rewrite E in E'. inversion E'; subst log all.
  exists (log1 ++ log2'), log1, log2, (non_null all1), (non_null all2).
  split; [exact D1 |]. split; [exact D2 |].
  rewrite D. unfold non_null. now rewrite omap_app.
Qed.

End Elements.

(** ** The page *)

Lemma pbind_eret {A B} (m : Page A) (f : A -> Page B) d d' a :
  m d = (d', eret a) -> pbind m f d = f a d'.
Proof.
  intros E. unfold pbind. rewrite E. unfold eret.
  now destruct (f a d') as [d'' [l' r]].
Qed.

Lemma on_row_last {A} (f : Row -> A * Row) a0 m pre r i :
  on_row (length pre) f a0
    {| outputBody := Some {| markup := m; rows := pre ++ [r] |};
       decoderInput := i |}
  = ({| outputBody := Some {| markup := m; rows := pre ++ [snd (f r)] |};
        decoderInput := i |},
     eret (fst (f r))).
Proof.
  unfold on_row, on_body. cbn [outputBody decoderInput rows markup].
  rewrite list_lookup_middle by reflexivity.
  rewrite alter_app_r_alt by reflexivity. rewrite Nat.sub_diag.
  reflexivity.
Qed.

(** The callback of [forEach] in [renderOutput] adds the row of its
    record. *)
Lemma forEach_rows m i cs : forall pre,
  forEach (fun contribution =>
    (row <- insertRow;;
     cellBucketBin <- insertCell row;;
     cellValueBin <- insertCell row;;
     cellBucketDec <- insertCell row;;
     cellValueDec <- insertCell row;;
     set_innerHTML row cellBucketBin (code (bucketInBinary contribution));;;
     set_innerHTML row cellValueBin (code (valueInBinary contribution));;;
     set_innerHTML row cellBucketDec (code (bucketInDecimal contribution));;;
     set_innerHTML row cellValueDec
       (code (valueInDecimal contribution)))%page) cs
    {| outputBody := Some {| markup := m; rows := pre |};
       decoderInput := i |}
  = ({| outputBody := Some {| markup := m; rows := pre ++ map data_row cs |};
        decoderInput := i |},
     eret tt).
Proof.
  induction cs as [|c cs IH]; intros pre.
  - cbn. now rewrite app_nil_r.
  - cbn [forEach map].
    erewrite pbind_eret; [rewrite (IH (pre ++ [data_row c]));
                          now rewrite <- app_assoc |].
    erewrite pbind_eret by reflexivity. cbn [length].
    unfold insertCell, set_innerHTML, on_cell.
    do 7 (erewrite pbind_eret by apply on_row_last; cbn [fst snd cells
            className length app alter list_alter]).
    rewrite on_row_last. reflexivity.
Qed.

Lemma render_present b i contributions :
  renderOutput contributions
    {| outputBody := Some b; decoderInput := i |}
  = ({| outputBody := Some (rendered contributions); decoderInput := i |},
     eret tt).
Proof.
  unfold renderOutput, rendered.
  erewrite (pbind_eret getOutputBody _ _ _ true) by reflexivity.
  cbn [negb]. erewrite pbind_eret by reflexivity.
  destruct (nothing_to_show contributions); [reflexivity |].
  apply (forEach_rows "" i _ []).
Qed.

Lemma render_absent i contributions :
  renderOutput contributions {| outputBody := None; decoderInput := i |}
  = ({| outputBody := None; decoderInput := i |},
     ([Console LevelError
         [LText "Output table body 'decoder-output-body' not found."]],
      Return tt)).
Proof. reflexivity. Qed.

Lemma bits_are_decimal n : all_chars is_decimal_digit (N_digits 2 n) = true.
Proof.
  apply (numeral_chars 2 is_decimal_digit n).
  - intros d Hd. apply is_decimal_digit_char. lia.
  - apply N_digits_numeral. lia.
Qed.

Section PageProperties.

Variable atob : string -> Outcome string.
Variable cbor_decodeFirst : list byte -> Outcome Value.
Variable array_like : list (string * Value) -> Outcome (list Value).
Variable message : Exn -> string.

Local Abbreviation decode :=
  (decodePayload atob cbor_decodeFirst array_like).
Local Abbreviation run :=
  (runDecoder atob cbor_decodeFirst array_like message).

(** X11. With the table body on the page, [renderOutput] on one or more
    records leaves in it one row per record, in their order, each of four
    cells holding the record's texts between [<code>] tags; what the table
    held before is gone, and nothing is logged. *)
Theorem render_one_row_per_record b i cs :
  cs <> [] ->
  renderOutput (Some cs) {| outputBody := Some b; decoderInput := i |}
  = ({| outputBody := Some {| markup := ""; rows := map data_row cs |};
        decoderInput := i |},
     eret tt).
Proof.
  intros NE. rewrite render_present. unfold rendered.
  destruct cs; [congruence | reflexivity].
Qed.

(** X12. With the table body on the page, [renderOutput] on no argument or
    on an empty list leaves in it the single row that tells there is no
    data, one cell over four columns, whatever the table held before. *)
Theorem render_nothing_is_one_row b i :
  renderOutput None {| outputBody := Some b; decoderInput := i |}
  = ({| outputBody := Some {| markup := ""; rows := [no_data_row] |};
        decoderInput := i |}, eret tt) /\
  renderOutput (Some []) {| outputBody := Some b; decoderInput := i |}
  = ({| outputBody := Some {| markup := ""; rows := [no_data_row] |};
        decoderInput := i |}, eret tt).
Proof. split; apply render_present. Qed.

(** X13. [renderOutput] never raises and never touches the input control;
    without the table body on the page it changes nothing and logs that the
    body was not found. *)
Theorem render_never_raises d contributions :
  exists d' log,
    renderOutput contributions d = (d', (log, Return tt)) /\
    decoderInput d' = decoderInput d /\
    (outputBody d = None ->
     d' = d /\
     log = [Console LevelError
              [LText "Output table body 'decoder-output-body' not found."]]).
Proof.
  destruct d as [[b|] i].
  - rewrite render_present. eexists _, _.
    split; [reflexivity |]. split; [reflexivity | discriminate].
  - rewrite render_absent. eexists _, _.
    split; [reflexivity |]. split; [reflexivity | auto].
Qed.

(** X14. The last rendering wins: after any earlier [renderOutput], a
    [renderOutput] leaves the document it would have left without it. *)
Theorem render_last_wins d earlier contributions :
  fst (renderOutput contributions (fst (renderOutput earlier d)))
  = fst (renderOutput contributions d).
Proof.
  destruct d as [[b|] i].
  - rewrite (render_present b). cbn [fst]. now rewrite !render_present.
  - rewrite (render_absent i earlier). cbn [fst]. reflexivity.
Qed.

Lemma run_payload d payload :
  decoderInput d = Some payload ->
  run d =
  (renderOutput (Some []);;;
   if negb (truthy (VString payload)) then
     plift (console LevelLog [LText "Input payload is empty."])
   else
     ptry
       (outputArray <- plift (decode payload);;
        renderOutput (Some outputArray))
       (fun error =>
          plift (console LevelError
                   [LText "Error during decoding process:"; LExn error]);;;
          tableBody <- getOutputBody;;
          if tableBody : bool then
            set_body_innerHTML (failure_markup message error)
          else pret tt))%page d.
Proof.
  intros Hi. unfold runDecoder.
  rewrite (pbind_eret input_value _ d d payload); [reflexivity |].
  unfold input_value. now rewrite Hi.
Qed.

Lemma truthy_payload payload :
  payload <> "" -> negb (truthy (VString payload)) = false.
Proof. destruct payload; [congruence | reflexivity]. Qed.

(** X15. [runDecoder] raises exactly when the page has no input control:
    then it ends in a [TypeError] before the table is touched, and with the
    control on the page it returns, whatever the payload and whatever
    [atob] and the CBOR decoder do. *)
Theorem run_raises_only_without_input d :
  (decoderInput d = None -> run d = (d, ([], Throw TypeError))) /\
  (is_Some (decoderInput d) -> exists d' log, run d = (d', (log, Return tt))).
Proof.
  split.
  - intros Hi. unfold runDecoder, pbind, input_value. now rewrite Hi.
  - intros [payload Hi]. rewrite (run_payload _ _ Hi).
    destruct (render_never_raises d (Some [])) as (d1 & l1 & E1 & _).
    unfold pbind at 1. rewrite E1.
    destruct (negb (truthy (VString payload))); [unfold plift; cbn; eauto |].
    unfold ptry, pbind at 1, plift at 1.
    destruct (decode payload) as [l [out|e]].
    + destruct (render_never_raises d1 (Some out)) as (d2 & l2 & E2 & _).
      rewrite E2. cbn. eauto.
    + unfold pbind, plift, getOutputBody, set_body_innerHTML, on_body. cbn.
      destruct (outputBody d1) eqn:B; cbn; rewrite ?B; cbn; eauto.
Qed.

(** X16. On an empty payload [runDecoder] shows the row that tells there is
    no data and logs that the payload is empty; the decoder is not called,
    so nothing depends on [atob] or the CBOR decoder. *)
Theorem run_on_empty_payload b :
  run {| outputBody := Some b; decoderInput := Some "" |}
  = ({| outputBody := Some {| markup := ""; rows := [no_data_row] |};
        decoderInput := Some "" |},
     ([Console LevelLog [LText "Input payload is empty."]], Return tt)).
Proof.
  rewrite (run_payload {| outputBody := Some b; decoderInput := Some "" |}
             "" eq_refl).
  unfold pbind at 1.
  rewrite render_present. reflexivity.
Qed.

(** X17. When the decode raises, [runDecoder] does not: it logs the error
    and replaces the content of the table body by the failure row carrying
    the error's message. *)
Theorem run_on_failure b payload log e :
  payload <> "" ->
  decode payload = (log, Throw e) ->
  run {| outputBody := Some b; decoderInput := Some payload |}
  = ({| outputBody :=
          Some {| markup := failure_markup message e; rows := [] |};
        decoderInput := Some payload |},
     (log ++ [Console LevelError
                [LText "Error during decoding process:"; LExn e]],
      Return tt)).
Proof.
  intros NE D.
  rewrite (run_payload
             {| outputBody := Some b; decoderInput := Some payload |}
             payload eq_refl).
  unfold pbind at 1.
  rewrite render_present, (truthy_payload _ NE).
  unfold ptry, pbind at 1, plift at 1. rewrite D. reflexivity.
Qed.

(** X18. When the decode returns, [runDecoder] leaves in the table body what
    [renderOutput] makes of the returned records, one row per record in
    their order or the row that tells there is no data, and logs what the
    decode logged. *)
Theorem run_on_success b payload log out :
  payload <> "" ->
  decode payload = (log, Return out) ->
  run {| outputBody := Some b; decoderInput := Some payload |}
  = ({| outputBody :=
          Some {| markup := "";
                  rows := match out with
                          | [] => [no_data_row]
                          | _ => map data_row out
                          end |};
        decoderInput := Some payload |},
     (log, Return tt)).
Proof.
  intros NE D.
  rewrite (run_payload
             {| outputBody := Some b; decoderInput := Some payload |}
             payload eq_refl).
  unfold pbind at 1.
  rewrite render_present, (truthy_payload _ NE).
  unfold ptry, pbind at 1, plift at 1. rewrite D, render_present.
  cbn. rewrite !app_nil_r. unfold rendered. now destruct out.
Qed.

(** X19. After a run whose decode returned, the markup assigned to a cell's
    [innerHTML] is a run of decimal digits between [<code>] tags: the table
    body holds no other markup, and a cell without it holds fixed text. *)
Theorem run_writes_digits_only b payload log out d' result :
  decode payload = (log, Return out) ->
  run {| outputBody := Some b; decoderInput := Some payload |} = (d', result) ->
  exists b',
    outputBody d' = Some b' /\ markup b' = "" /\
    forall row cell, row ∈ rows b' -> cell ∈ cells row ->
      content cell
      = TextContent "No valid contributions with non-zero value found." \/
      exists digits,
        content cell = InnerHTML (code digits) /\
        all_chars is_decimal_digit digits = true.
Proof.
  intros D R.
  assert (B : exists cs, outputBody d' = Some (rendered (Some cs)) /\
                         forall r, r ∈ cs -> r ∈ out).
  { destruct (String.string_dec payload "") as [-> | NE].
    - rewrite run_on_empty_payload in R. inversion R; subst.
      exists []. split; [reflexivity | intros r H; now apply elem_of_nil in H].
    - rewrite (run_on_success _ _ _ _ NE D) in R. inversion R; subst.
      exists out. split; [now destruct out | auto]. }
  destruct B as (cs & -> & Hcs). eexists. split; [reflexivity |].
  split; [reflexivity |]. intros row cell Hrow Hcell.
  unfold rendered in Hrow. cbn [rows nothing_to_show default] in Hrow.
  destruct cs as [|c cs]; cbn [length Nat.eqb] in Hrow.
  - apply list_elem_of_singleton in Hrow. subst row.
    apply list_elem_of_singleton in Hcell. subst cell. now left.
  - apply list_elem_of_fmap in Hrow. destruct Hrow as (r & -> & Hr).
    destruct (decode_record atob cbor_decodeFirst array_like _ _ _ _ D
                (Hcs _ Hr)) as (bk & v & _ & ->).
    right. cbn in Hcell.
    repeat (apply elem_of_cons in Hcell; destruct Hcell as [-> | Hcell]);
      try (eexists; split; [reflexivity |]);
      try apply bits_are_decimal;
      try (pose proof (decimal_N_digits (be_value bk)) as P;
           unfold decimal_string in P; apply andb_prop in P; apply P);
      try (pose proof (decimal_N_digits (be_value v)) as P;
           unfold decimal_string in P; apply andb_prop in P; apply P).
    now apply elem_of_nil in Hcell.
Qed.

(** X20. Without the table body on the page, [runDecoder] leaves the
    document as it found it, on every payload. *)
Theorem run_without_table i :
  fst (run {| outputBody := None; decoderInput := i |})
  = {| outputBody := None; decoderInput := i |}.
Proof.
  destruct i as [payload|]; [|reflexivity].
  rewrite (run_payload {| outputBody := None; decoderInput := Some payload |}
             payload eq_refl).
  unfold pbind at 1. rewrite render_absent.
  destruct (negb (truthy (VString payload))); [reflexivity |].
  unfold ptry, pbind at 1, plift at 1.
  destruct (decode payload) as [l [out|e]].
  - now rewrite render_absent.
  - reflexivity.
Qed.

End PageProperties.

(** ** The further properties on payloads and pages *)

Lemma decode_raises_only_envelope_errors_witness :
  @nil LogEntry = [] /\
  (Platform.atob Samples.not_cbor = Throw (HostError "CborDecodeError") \/
   exists binary,
     Platform.atob Samples.not_cbor = Return binary /\
     Platform.decodeFirst (char_codes binary)
     = Throw (HostError "CborDecodeError")).
Proof.
  apply (decode_raises_only_envelope_errors Platform.atob
           Platform.decodeFirst Platform.array_like Samples.not_cbor).
  vm_compute. reflexivity.
Defined.

Lemma valid_item_is_kept_witness :
  exists log out r,
    Platform.decode Samples.three = (log, Return out) /\
    r ∈ out /\
    covertToBinary Platform.array_like (VBytes ["255"%byte])
    = eret (bucketInBinary r) /\
    covertToBinary Platform.array_like (VBytes ["001"%byte])
    = eret (valueInBinary r) /\
    parse_nat 10 (bucketInDecimal r) = Some 255 /\
    parse_nat 10 (valueInDecimal r) = Some 1.
Proof.
  eapply (valid_item_is_kept Platform.atob Platform.decodeFirst
            Platform.array_like Samples.three _
            (VObject [("data", VArray Samples.three_items)])
            Samples.three_items 0%nat _ ["255"%byte] ["001"%byte]).
  - vm_compute. reflexivity.
  - vm_compute. reflexivity.
  - reflexivity.
  - reflexivity.
  - reflexivity.
  - reflexivity.
  - vm_compute. discriminate.
Defined.

Lemma every_element_is_accounted_witness :
  exists log out,
    Platform.decode Samples.three = (log, Return out) /\
    (length log + length out = 3)%nat.
Proof.
  eapply (every_element_is_accounted Platform.atob Platform.decodeFirst
            Platform.array_like Samples.three _
            (VObject [("data", VArray Samples.three_items)])
            Samples.three_items).
  - vm_compute. reflexivity.
  - vm_compute. reflexivity.
  - reflexivity.
Defined.

Lemma decode_log_lines_witness :
  (exists decoded, zero_notice 1 = mismatch_error decoded) \/
  (exists index item, zero_notice 1 = skip_warning index item) \/
  (exists index, zero_notice 1 = zero_notice index).
Proof.
  eapply (decode_log_lines Platform.atob Platform.decodeFirst
            Platform.array_like Samples.three).
  - vm_compute. reflexivity.
  - apply list_elem_of_here.
Defined.

Lemma decode_of_concatenation_witness :
  exists log front_log rear_log front_out rear_out,
    Platform.decode MoreSamples.front = (front_log, Return front_out) /\
    Platform.decode MoreSamples.rear = (rear_log, Return rear_out) /\
    Platform.decode Samples.three = (log, Return (front_out ++ rear_out)).
Proof.
  eapply (decode_of_concatenation Platform.atob Platform.decodeFirst
            Platform.array_like
            Samples.three _ (VObject [("data", VArray Samples.three_items)])
            MoreSamples.front _
            (VObject [("data", VArray MoreSamples.front_items)])
            MoreSamples.rear _
            (VObject [("data", VArray MoreSamples.rear_items)])
            MoreSamples.front_items MoreSamples.rear_items).
  - vm_compute. reflexivity.
  - vm_compute. reflexivity.
  - reflexivity.
  - vm_compute. reflexivity.
  - vm_compute. reflexivity.
  - reflexivity.
  - vm_compute. reflexivity.
  - vm_compute. reflexivity.
  - reflexivity.
Defined.

Lemma render_one_row_per_record_witness :
  renderOutput (Some MoreSamples.kept) (SamplePage.page Samples.three)
  = ({| outputBody :=
          Some {| markup := ""; rows := map data_row MoreSamples.kept |};
        decoderInput := Some Samples.three |},
     eret tt).
Proof.
  apply (render_one_row_per_record _ (Some Samples.three) MoreSamples.kept).
  discriminate.
Defined.

Lemma run_on_failure_witness :
  SamplePage.run (SamplePage.page Samples.not_base64)
  = ({| outputBody :=
          Some {| markup :=
                    failure_markup SamplePage.message
                      (HostError "InvalidCharacterError");
                  rows := [] |};
        decoderInput := Some Samples.not_base64 |},
     ([] ++ [Console LevelError
               [LText "Error during decoding process:";
                LExn (HostError "InvalidCharacterError")]],
      Return tt)).
Proof.
  apply (run_on_failure Platform.atob Platform.decodeFirst
           Platform.array_like SamplePage.message).
  - discriminate.
  - vm_compute. reflexivity.
Defined.

Lemma run_on_success_witness :
  SamplePage.run (SamplePage.page Samples.three)
  = ({| outputBody :=
          Some {| markup := ""; rows := map data_row MoreSamples.kept |};
        decoderInput := Some Samples.three |},
     ([zero_notice 1], Return tt)).
Proof.
  apply (run_on_success Platform.atob Platform.decodeFirst
           Platform.array_like SamplePage.message _ Samples.three
           [zero_notice 1] MoreSamples.kept).
  - discriminate.
  - vm_compute. reflexivity.
Defined.

Lemma run_writes_digits_only_witness :
  exists b',
    Some {| markup := ""; rows := map data_row MoreSamples.kept |} = Some b'
    /\ markup b' = "" /\
    forall row cell, row ∈ rows b' -> cell ∈ cells row ->
      content cell
      = TextContent "No valid contributions with non-zero value found." \/
      exists digits,
        content cell = InnerHTML (code digits) /\
        all_chars is_decimal_digit digits = true.
Proof.
  apply (run_writes_digits_only Platform.atob Platform.decodeFirst
           Platform.array_like SamplePage.message
           {| markup := "<tr><td>stale</td></tr>";
              rows := [{| className := "old"; cells := [] |}] |}
           Samples.three [zero_notice 1] MoreSamples.kept
           {| outputBody :=
                Some {| markup := ""; rows := map data_row MoreSamples.kept |};
              decoderInput := Some Samples.three |}
           ([zero_notice 1], Return tt)).
  - vm_compute. reflexivity.
  - vm_compute. reflexivity.
Defined.

(** A blank payload is not empty, so [runDecoder] decodes it; the decode
    returns no record, and the table shows the row that tells there is no
    data, not the failure row. *)
Example run_blank :
  SamplePage.run (SamplePage.page " ")
  = ({| outputBody := Some {| markup := ""; rows := [no_data_row] |};
        decoderInput := Some " " |},
     ([mismatch_error Platform.not_found], Return tt)).
Proof. vm_compute. reflexivity. Qed.
